(** * Expectation.js: the fluent assertion wrapper, embedded and verified

    The development follows src/modules/Expectation.js.  JavaScript values
    are an inductive type, numbers are IEEE 754 doubles (the Standard
    Library's [spec_float]), objects carry the address that [===] compares.
    Wrapper objects live in a store indexed by address, and every method is
    a computation in a state-and-exception monad over that store, taking
    its receiver [this] and returning the reference it returns in the
    source.  The helpers imported from other modules are the fields of the
    class [Collaborators]; every theorem holds for all their
    implementations. *)

From Stdlib Require Import Floats.SpecFloat Strings.Ascii Strings.String.
From stdpp Require Import gmap strings list fin_maps.

Open Scope string_scope.

(** ** JavaScript values *)

(** An address identifies an object; addresses are [positive] numbers. *)
#[local] Set Warnings "-register-all".

Inductive jsval : Type :=
| VUndefined
| VNull
| VBool (b : bool)
| VNumber (n : spec_float)
| VString (s : string)
| VArray (a : positive) (items : list jsval)
| VObject (a : positive) (props : list (string * jsval))
| VRegExp (a : positive) (source flags : string)
| VFunction (a : positive)
| VSpy (a : positive) (calls : list (positive * list jsval)).

(** A call record of a spy; the one field this file reads is [arguments],
    an array. *)
Definition call_arguments (call : positive * list jsval) : jsval :=
  VArray (fst call) (snd call).

(** [typeof v] *)
Definition typeof (v : jsval) : string :=
  match v with
  | VUndefined => "undefined"
  | VNull => "object"
  | VBool _ => "boolean"
  | VNumber _ => "number"
  | VString _ => "string"
  | VArray _ _ => "object"
  | VObject _ _ => "object"
  | VRegExp _ _ _ => "object"
  | VFunction _ => "function"
  | VSpy _ _ => "function"
  end.

(** ToBoolean, the coercion of [if (v)], [!v] and [v || d]. *)
Definition truthy (v : jsval) : bool :=
  match v with
  | VUndefined | VNull => false
  | VBool b => b
  | VNumber (S754_zero _) | VNumber S754_nan => false
  | VNumber _ => true
  | VString EmptyString => false
  | VString _ => true
  | _ => true
  end.

(** [a || b] on values *)
Definition js_or (a b : jsval) : jsval := if truthy a then a else b.

(** [a === b]: no coercion; numbers compare as doubles, objects by
    address. *)
Definition strict_equals (a b : jsval) : bool :=
  match a, b with
  | VUndefined, VUndefined => true
  | VNull, VNull => true
  | VBool x, VBool y => Bool.eqb x y
  | VNumber x, VNumber y => SFeqb x y
  | VString x, VString y => String.eqb x y
  | VArray x _, VArray y _ => Pos.eqb x y
  | VObject x _, VObject y _ => Pos.eqb x y
  | VRegExp x _ _, VRegExp y _ _ => Pos.eqb x y
  | VFunction x, VFunction y => Pos.eqb x y
  | VSpy x _, VSpy y _ => Pos.eqb x y
  | _, _ => false
  end.

(** [a !== b] *)
Definition strict_not_equals (a b : jsval) : bool := negb (strict_equals a b).

(** [a == null] *)
Definition is_nullish (v : jsval) : bool :=
  match v with
  | VUndefined | VNull => true
  | _ => false
  end.

(** The relational operators on two numbers.  [a > b] is [b < a] and
    [a >= b] is [b <= a]; an unordered pair (a NaN operand) gives [false]. *)
Definition js_lt (a b : spec_float) : bool := SFltb a b.
Definition js_le (a b : spec_float) : bool := SFleb a b.
Definition js_gt (a b : spec_float) : bool := SFltb b a.
Definition js_ge (a b : spec_float) : bool := SFleb b a.

(** The operators on values of which both are known to be numbers; on
    other operands the methods below have thrown before they compare. *)
Definition compare_with (op : spec_float -> spec_float -> bool) (a b : jsval)
  : bool :=
  match a, b with
  | VNumber x, VNumber y => op x y
  | _, _ => false
  end.

(** [arr.concat(x1, ..., xn)]: an argument that is an array contributes
    its elements, any other argument contributes itself. *)
Definition concat_spread (x : jsval) : list jsval :=
  match x with
  | VArray _ ys => ys
  | _ => [x]
  end.

Definition concat_items (items : list jsval) (xs : list jsval) : list jsval :=
  items ++ flat_map concat_spread xs.

(** ** Error objects, the wrapper object and the store *)

(** An error object: its class name, its message, and the three properties
    a test runner reads to print a diff ([showDiff] absent is [false]). *)
Record Error := mkError {
  err_name : string;
  err_message : string;
  showDiff : bool;
  err_actual : option jsval;
  err_expected : option jsval
}.

(** [new Error(message)] *)
Definition new_Error (message : string) : Error :=
  mkError "Error" message false None None.

(** The TypeError of a property read on [undefined] or of a call of a
    value that is no function. *)
Definition TypeError (message : string) : Error :=
  mkError "TypeError" message false None None.

(** The fields of an [Expectation] object; a field never assigned reads
    [undefined]. *)
Record Expectation := mkExpectation {
  actual : jsval;
  context : jsval;
  args : jsval
}.

Record heap := mkHeap {
  wrappers : gmap positive Expectation;
  next : positive
}.

Inductive outcome (A : Type) : Type :=
| Return (a : A)
| Throw (e : Error).
Arguments Return {A} a.
Arguments Throw {A} e.

Definition M (A : Type) : Type := heap -> outcome A * heap.

Definition ret {A} (a : A) : M A := fun h => (Return a, h).

Definition throw {A} (e : Error) : M A := fun h => (Throw e, h).

Definition bind {A B} (m : M A) (k : A -> M B) : M B :=
  fun h =>
    match m h with
    | (Return a, h') => k a h'
    | (Throw e, h') => (Throw e, h')
    end.

(** [try { body } catch (e) { handler }] *)
Definition try_catch {A} (body : M A) (handler : Error -> M A) : M A :=
  fun h =>
    match body h with
    | (Return a, h') => (Return a, h')
    | (Throw e, h') => handler e h'
    end.

Declare Scope js_scope.
Delimit Scope js_scope with js.
Notation "x <- m ;; k" := (bind m (fun x => k))
  (at level 100, m at next level, right associativity) : js_scope.
Notation "m ;; k" := (bind m (fun _ => k))
  (at level 100, right associativity) : js_scope.
Open Scope js_scope.

(** A fresh address, for an array the code creates. *)
Definition alloc : M positive :=
  fun h => (Return (next h), mkHeap (wrappers h) (Pos.succ (next h))).

(** [[x1, ..., xn]] *)
Definition new_array (items : list jsval) : M jsval :=
  a <- alloc ;; ret (VArray a items).

(** Reading and writing the fields of [this]. *)
Definition read_this (this : positive) : M Expectation :=
  fun h =>
    match wrappers h !! this with
    | Some w => (Return w, h)
    | None => (Throw (TypeError "this is undefined"), h)
    end.

Definition this_actual (this : positive) : M jsval :=
  w <- read_this this ;; ret (actual w).

Definition this_context (this : positive) : M jsval :=
  w <- read_this this ;; ret (context w).

Definition this_args (this : positive) : M jsval :=
  w <- read_this this ;; ret (args w).

Definition write_this (this : positive) (f : Expectation -> Expectation)
  : M unit :=
  fun h =>
    match wrappers h !! this with
    | Some w => (Return tt, mkHeap (<[this := f w]> (wrappers h)) (next h))
    | None => (Throw (TypeError "this is undefined"), h)
    end.

Definition set_context (v : jsval) (w : Expectation) : Expectation :=
  mkExpectation (actual w) v (args w).

Definition set_args (v : jsval) (w : Expectation) : Expectation :=
  mkExpectation (actual w) (context w) v.

(** The [n]-th argument of a call; a missing argument is [undefined]. *)
Definition arg (n : nat) (arguments : list jsval) : jsval :=
  nth n arguments VUndefined.

(** ** The collaborators

    What Expectation.js imports: [is-equal], [is-regex], and the helpers
    of ./SpyUtils and ./TestUtils.  They are pure functions of their
    arguments here.  [isEqual_fn] is the function [isEqual] as a value,
    which [toInclude] passes on as the default comparator, and
    [RegExp_test pattern s] is [pattern.test(s)].  [render] is the
    templating of the reporter: the message of a failure, from the
    template and the values for its placeholders. *)
Class Collaborators := {
  isEqual : jsval -> jsval -> bool;
  isEqual_fn : jsval;
  isRegExp : jsval -> bool;
  RegExp_test : jsval -> jsval -> bool;
  isSpy : jsval -> bool;
  functionThrows : jsval -> jsval -> jsval -> jsval -> bool;
  isFunction : jsval -> bool;
  isArray : jsval -> bool;
  isObject : jsval -> bool;
  isA : jsval -> jsval -> bool;
  arrayContains : jsval -> jsval -> jsval -> bool;
  objectContains : jsval -> jsval -> jsval -> bool;
  stringContains : jsval -> jsval -> bool;
  render : jsval -> list jsval -> string
}.

(** A double quote, and a word between double quotes, for the messages
    that quote an argument's name. *)
Definition dquote : string := String (Ascii.ascii_of_nat 34) EmptyString.
Definition quoted (s : string) : string := dquote ++ s ++ dquote.

(** ** The class [Expectation] *)

Section Methods.

Context `{Collaborators}.

(** Modelled from the spec: the reporter [assert] of ./assert, which is
    not among the sources.  Given a condition, a message template and the
    values for its placeholders, it returns normally when the condition
    holds and otherwise raises a failure that carries the rendered message
    and nothing else. *)
Definition assert (condition : bool) (messageFormat : jsval)
    (extraArgs : list jsval) : M unit :=
  if condition then ret tt
  else throw (new_Error (render messageFormat extraArgs)).

(** [new Expectation(actual)]: the allocation of the object, then the
    constructor's body. *)
Definition new_Expectation (actual : jsval) : M positive :=
  this <- alloc ;;
  (fun h => (Return tt,
             mkHeap (<[this := mkExpectation actual VUndefined VUndefined]>
                       (wrappers h)) (next h))) ;;
  (if isFunction actual then
     write_this this (set_context VNull) ;;
     empty <- new_array [] ;;
     write_this this (set_args empty)
   else ret tt) ;;
  ret this.

(** In the methods, [a] is [this.actual]; reading a field has no effect,
    so a method that mentions [this.actual] several times reads it once
    here. *)

Definition toExist (this : positive) (message : jsval) : M positive :=
  a <- this_actual this ;;
  assert (truthy a) (js_or message (VString "Expected %s to exist")) [a] ;;
  ret this.

Definition toNotExist (this : positive) (message : jsval) : M positive :=
  a <- this_actual this ;;
  assert (negb (truthy a))
    (js_or message (VString "Expected %s to not exist")) [a] ;;
  ret this.

Definition toBe (this : positive) (value message : jsval) : M positive :=
  a <- this_actual this ;;
  assert (strict_equals a value)
    (js_or message (VString "Expected %s to be %s")) [a; value] ;;
  ret this.

Definition toNotBe (this : positive) (value message : jsval) : M positive :=
  a <- this_actual this ;;
  assert (strict_not_equals a value)
    (js_or message (VString "Expected %s to not be %s")) [a; value] ;;
  ret this.

Definition toEqual (this : positive) (value message : jsval) : M positive :=
  try_catch
    (a <- this_actual this ;;
     assert (isEqual a value)
       (js_or message (VString "Expected %s to equal %s")) [a; value])
    (fun e =>
       (* These attributes are consumed by Mocha to produce a diff output. *)
       a <- this_actual this ;;
       throw (mkError (err_name e) (err_message e) true (Some a) (Some value))) ;;
  ret this.

Definition toNotEqual (this : positive) (value message : jsval)
  : M positive :=
  a <- this_actual this ;;
  assert (negb (isEqual a value))
    (js_or message (VString "Expected %s to not equal %s")) [a; value] ;;
  ret this.

Definition toThrow (this : positive) (value message : jsval) : M positive :=
  a <- this_actual this ;;
  assert (isFunction a)
    (VString ("The " ++ quoted "actual" ++
       " argument in expect(actual).toThrow() must be a function, %s was given"))
    [a] ;;
  ctx <- this_context this ;;
  xs <- this_args this ;;
  assert (functionThrows a ctx xs value)
    (js_or message (VString "Expected %s to throw %s"))
    [a; js_or value (VString "an error")] ;;
  ret this.

Definition toNotThrow (this : positive) (value message : jsval)
  : M positive :=
  a <- this_actual this ;;
  assert (isFunction a)
    (VString ("The " ++ quoted "actual" ++
       " argument in expect(actual).toNotThrow() must be a function, %s was given"))
    [a] ;;
  ctx <- this_context this ;;
  xs <- this_args this ;;
  assert (negb (functionThrows a ctx xs value))
    (js_or message (VString "Expected %s to not throw %s"))
    [a; js_or value (VString "an error")] ;;
  ret this.

Definition toBeA (this : positive) (value message : jsval) : M positive :=
  assert (isFunction value || String.eqb (typeof value) "string")
    (VString ("The " ++ quoted "value" ++
       " argument in toBeA(value) must be a function or a string")) [] ;;
  a <- this_actual this ;;
  assert (isA a value)
    (js_or message (VString "Expected %s to be a %s")) [a; value] ;;
  ret this.

Definition toNotBeA (this : positive) (value message : jsval) : M positive :=
  assert (isFunction value || String.eqb (typeof value) "string")
    (VString ("The " ++ quoted "value" ++
       " argument in toNotBeA(value) must be a function or a string")) [] ;;
  a <- this_actual this ;;
  assert (negb (isA a value))
    (js_or message (VString "Expected %s to be a %s")) [a; value] ;;
  ret this.

Definition toMatch (this : positive) (pattern message : jsval) : M positive :=
  a <- this_actual this ;;
  assert (String.eqb (typeof a) "string")
    (VString ("The " ++ quoted "actual" ++
       " argument in expect(actual).toMatch() must be a string")) [] ;;
  assert (isRegExp pattern)
    (VString ("The " ++ quoted "value" ++
       " argument in toMatch(value) must be a RegExp")) [] ;;
  assert (RegExp_test pattern a)
    (js_or message (VString "Expected %s to match %s")) [a; pattern] ;;
  ret this.

Definition toNotMatch (this : positive) (pattern message : jsval)
  : M positive :=
  a <- this_actual this ;;
  assert (String.eqb (typeof a) "string")
    (VString ("The " ++ quoted "actual" ++
       " argument in expect(actual).toNotMatch() must be a string")) [] ;;
  assert (isRegExp pattern)
    (VString ("The " ++ quoted "value" ++
       " argument in toNotMatch(value) must be a RegExp")) [] ;;
  assert (negb (RegExp_test pattern a))
    (js_or message (VString "Expected %s to not match %s")) [a; pattern] ;;
  ret this.

Definition toBeLessThan (this : positive) (value message : jsval)
  : M positive :=
  a <- this_actual this ;;
  assert (String.eqb (typeof a) "number")
    (VString ("The " ++ quoted "actual" ++
       " argument in expect(actual).toBeLessThan() must be a number")) [] ;;
  assert (String.eqb (typeof value) "number")
    (VString ("The " ++ quoted "value" ++
       " argument in toBeLessThan(value) must be a number")) [] ;;
  assert (compare_with js_lt a value)
    (js_or message (VString "Expected %s to be less than %s")) [a; value] ;;
  ret this.

Definition toBeLessThanOrEqualTo (this : positive) (value message : jsval)
  : M positive :=
  a <- this_actual this ;;
  assert (String.eqb (typeof a) "number")
    (VString ("The " ++ quoted "actual" ++
       " argument in expect(actual).toBeLessThanOrEqualTo() must be a number")) [] ;;
  assert (String.eqb (typeof value) "number")
    (VString ("The " ++ quoted "value" ++
       " argument in toBeLessThanOrEqualTo(value) must be a number")) [] ;;
  assert (compare_with js_le a value)
    (js_or message (VString "Expected %s to be less than or equal to %s")) [a; value] ;;
  ret this.

Definition toBeGreaterThan (this : positive) (value message : jsval)
  : M positive :=
  a <- this_actual this ;;
  assert (String.eqb (typeof a) "number")
    (VString ("The " ++ quoted "actual" ++
       " argument in expect(actual).toBeGreaterThan() must be a number")) [] ;;
  assert (String.eqb (typeof value) "number")
    (VString ("The " ++ quoted "value" ++
       " argument in toBeGreaterThan(value) must be a number")) [] ;;
  assert (compare_with js_gt a value)
    (js_or message (VString "Expected %s to be greater than %s")) [a; value] ;;
  ret this.

Definition toBeGreaterThanOrEqualTo (this : positive) (value message : jsval)
  : M positive :=
  a <- this_actual this ;;
  assert (String.eqb (typeof a) "number")
    (VString ("The " ++ quoted "actual" ++
       " argument in expect(actual).toBeGreaterThanOrEqualTo() must be a number")) [] ;;
  assert (String.eqb (typeof value) "number")
    (VString ("The " ++ quoted "value" ++
       " argument in toBeGreaterThanOrEqualTo(value) must be a number")) [] ;;
  assert (compare_with js_ge a value)
    (js_or message (VString "Expected %s to be greater than or equal to %s")) [a; value] ;;
  ret this.

Definition toInclude (this : positive) (value compareValues message : jsval)
  : M positive :=
  let '(message, compareValues) :=
    if String.eqb (typeof compareValues) "string"
    then (compareValues, VNull)
    else (message, compareValues) in
  let compareValues :=
    if is_nullish compareValues then isEqual_fn else compareValues in
  a <- this_actual this ;;
  assert (isArray a || isObject a || String.eqb (typeof a) "string")
    (VString ("The " ++ quoted "actual" ++
       " argument in expect(actual).toInclude() must be an array, object, or a string"))
    [] ;;
  let contains := false in
  let contains :=
    if isArray a then arrayContains a value compareValues
    else if isObject a then objectContains a value compareValues
    else stringContains a value in
  assert contains
    (js_or message (VString "Expected %s to include %s")) [a; value] ;;
  ret this.

Definition toExclude (this : positive) (value compareValues message : jsval)
  : M positive :=
  let '(message, compareValues) :=
    if String.eqb (typeof compareValues) "string"
    then (compareValues, VNull)
    else (message, compareValues) in
  let compareValues :=
    if is_nullish compareValues then isEqual_fn else compareValues in
  a <- this_actual this ;;
  assert (isArray a || isObject a || String.eqb (typeof a) "string")
    (VString ("The " ++ quoted "actual" ++
       " argument in expect(actual).toExclude() must be an array, object, or a string"))
    [] ;;
  let contains := false in
  let contains :=
    if isArray a then arrayContains a value compareValues
    else if isObject a then objectContains a value compareValues
    else stringContains a value in
  assert (negb contains)
    (js_or message (VString "Expected %s to exclude %s")) [a; value] ;;
  ret this.

(** [spy.calls]: the call records of a spy object; any other value has no
    such list, and reading its length or calling its [some] is a
    TypeError. *)
Definition spy_calls (spy : jsval) : M (list (positive * list jsval)) :=
  match spy with
  | VSpy _ calls => ret calls
  | _ => throw (TypeError "spy.calls is undefined")
  end.

Definition toHaveBeenCalled (this : positive) (message : jsval)
  : M positive :=
  spy <- this_actual this ;;
  assert (isSpy spy)
    (VString ("The " ++ quoted "actual" ++
       " argument in expect(actual).toHaveBeenCalled() must be a spy")) [] ;;
  calls <- spy_calls spy ;;
  assert (0 <? length calls)%nat
    (js_or message (VString "spy was not called")) [] ;;
  ret this.

(** The rest parameter [expectedArgs] is a new array. *)
Definition toHaveBeenCalledWith (this : positive) (rest : list jsval)
  : M positive :=
  expectedArgs <- new_array rest ;;
  spy <- this_actual this ;;
  assert (isSpy spy)
    (VString ("The " ++ quoted "actual" ++
       " argument in expect(actual).toHaveBeenCalledWith() must be a spy"))
    [] ;;
  calls <- spy_calls spy ;;
  assert (existsb (fun call => isEqual (call_arguments call) expectedArgs)
            calls)
    (VString "spy was never called with %s") [expectedArgs] ;;
  ret this.

Definition toNotHaveBeenCalled (this : positive) (message : jsval)
  : M positive :=
  spy <- this_actual this ;;
  assert (isSpy spy)
    (VString ("The " ++ quoted "actual" ++
       " argument in expect(actual).toNotHaveBeenCalled() must be a spy"))
    [] ;;
  calls <- spy_calls spy ;;
  assert (length calls =? 0)%nat
    (js_or message (VString "spy was not supposed to be called")) [] ;;
  ret this.

Definition withContext (this : positive) (context : jsval) : M positive :=
  a <- this_actual this ;;
  assert (isFunction a)
    (VString ("The " ++ quoted "actual" ++
       " argument in expect(actual).withContext() must be a function")) [] ;;
  write_this this (set_context context) ;;
  ret this.

(** [receiver.concat(...xs)] when the receiver is an array; a new array. *)
Definition Array_concat (receiver : jsval) (xs : list jsval) : M jsval :=
  match receiver with
  | VArray _ items => new_array (concat_items items xs)
  | _ => throw (TypeError "this.args.concat is not a function")
  end.

Definition withArgs (this : positive) (args : list jsval) : M positive :=
  a <- this_actual this ;;
  assert (isFunction a)
    (VString ("The " ++ quoted "actual" ++
       " argument in expect(actual).withArgs() must be a function")) [] ;;
  (if (0 <? length args)%nat then
     old <- this_args this ;;
     new <- Array_concat old args ;;
     write_this this (set_args new)
   else ret tt) ;;
  ret this.

(** ** The prototype and the aliases *)

(** A method takes its receiver and the list of its arguments; a
    parameter with no argument is [undefined]. *)
Definition method : Type := positive -> list jsval -> M positive.

(** The methods of the class body, under their names. *)
Definition class_body : list (string * method) :=
  [ ("toExist", fun this xs => toExist this (arg 0 xs));
    ("toNotExist", fun this xs => toNotExist this (arg 0 xs));
    ("toBe", fun this xs => toBe this (arg 0 xs) (arg 1 xs));
    ("toNotBe", fun this xs => toNotBe this (arg 0 xs) (arg 1 xs));
    ("toEqual", fun this xs => toEqual this (arg 0 xs) (arg 1 xs));
    ("toNotEqual", fun this xs => toNotEqual this (arg 0 xs) (arg 1 xs));
    ("toThrow", fun this xs => toThrow this (arg 0 xs) (arg 1 xs));
    ("toNotThrow", fun this xs => toNotThrow this (arg 0 xs) (arg 1 xs));
    ("toBeA", fun this xs => toBeA this (arg 0 xs) (arg 1 xs));
    ("toNotBeA", fun this xs => toNotBeA this (arg 0 xs) (arg 1 xs));
    ("toMatch", fun this xs => toMatch this (arg 0 xs) (arg 1 xs));
    ("toNotMatch", fun this xs => toNotMatch this (arg 0 xs) (arg 1 xs));
    ("toBeLessThan",
      fun this xs => toBeLessThan this (arg 0 xs) (arg 1 xs));
    ("toBeLessThanOrEqualTo",
      fun this xs => toBeLessThanOrEqualTo this (arg 0 xs) (arg 1 xs));
    ("toBeGreaterThan",
      fun this xs => toBeGreaterThan this (arg 0 xs) (arg 1 xs));
    ("toBeGreaterThanOrEqualTo",
      fun this xs => toBeGreaterThanOrEqualTo this (arg 0 xs) (arg 1 xs));
    ("toInclude",
      fun this xs => toInclude this (arg 0 xs) (arg 1 xs) (arg 2 xs));
    ("toExclude",
      fun this xs => toExclude this (arg 0 xs) (arg 1 xs) (arg 2 xs));
    ("toHaveBeenCalled", fun this xs => toHaveBeenCalled this (arg 0 xs));
    ("toHaveBeenCalledWith", fun this xs => toHaveBeenCalledWith this xs);
    ("toNotHaveBeenCalled",
      fun this xs => toNotHaveBeenCalled this (arg 0 xs));
    ("withContext", fun this xs => withContext this (arg 0 xs));
    ("withArgs", fun this xs => withArgs this xs) ].

Definition aliases : list (string * string) :=
  [ ("toBeAn", "toBeA");
    ("toNotBeAn", "toNotBeA");
    ("toBeTruthy", "toExist");
    ("toBeFalsy", "toNotExist");
    ("toBeFewerThan", "toBeLessThan");
    ("toBeMoreThan", "toBeGreaterThan");
    ("toContain", "toInclude");
    ("toNotContain", "toExclude") ].

(** [Expectation.prototype[alias] = Expectation.prototype[aliases[alias]]];
    a name that is not bound reads [undefined], and a name assigned
    [undefined] is as good as not bound. *)
Definition bind_alias (proto : gmap string method) (entry : string * string)
  : gmap string method :=
  match proto !! entry.2 with
  | Some m => <[entry.1 := m]> proto
  | None => delete entry.1 proto
  end.

(** [Expectation.prototype] once the module is loaded: the class body,
    then the loop over [aliases]. *)
Definition prototype : gmap string method :=
  foldl bind_alias (list_to_map class_body) aliases.

(** [wrapper[name](...xs)] *)
Definition call_method (name : string) (this : positive) (xs : list jsval)
  : M positive :=
  match prototype !! name with
  | Some m => m this xs
  | None => throw (TypeError (name ++ " is not a function"))
  end.

End Methods.

(** ** Outcomes *)

(** A call passes when it returns, and fails when it throws. *)
Definition passes {A} (m : M A) (h : heap) : bool :=
  match (m h).1 with
  | Return _ => true
  | Throw _ => false
  end.

Definition fails {A} (m : M A) (h : heap) : bool := negb (passes m h).

(** The error a call throws, if it throws. *)
Definition thrown {A} (m : M A) (h : heap) : option Error :=
  match (m h).1 with
  | Return _ => None
  | Throw e => Some e
  end.

(** The diff payload: the flag and the two raw values. *)
Definition has_diff_payload (e : Error) (a expected : jsval) : Prop :=
  showDiff e = true /\ err_actual e = Some a /\ err_expected e = Some expected.

Definition no_diff_payload (e : Error) : Prop :=
  showDiff e = false /\ err_actual e = None /\ err_expected e = None.

(** ** A sample of collaborators

    One implementation of the class, written from sections 4.6 and 6 of
    the specification, on which the theorems below are instantiated.  Its
    functions never throw, its regular expressions are literal texts, and
    a comparator other than [isEqual] holds of no pair. *)
Module Sample.

Fixpoint assoc (k : string) (ps : list (string * jsval)) : option jsval :=
  match ps with
  | [] => None
  | (k', v) :: ps => if String.eqb k k' then Some v else assoc k ps
  end.

(** Modelled from the spec: the deep-equality comparator of [is-equal],
    which is not among the sources.  Arrays are equal when they have the
    same length and equal elements in order, plain objects when they have
    the same keys with equal values, regular expressions when pattern and
    flags agree, and other values when they are identical. *)
Fixpoint deepEqual (x y : jsval) {struct x} : bool :=
  match x, y with
  | VArray _ xs, VArray _ ys =>
      (fix each (xs ys : list jsval) {struct xs} : bool :=
         match xs, ys with
         | [], [] => true
         | x :: xs, y :: ys => deepEqual x y && each xs ys
         | _, _ => false
         end) xs ys
  | VObject _ ps, VObject _ qs =>
      (length ps =? length qs)%nat &&
      (fix each (ps : list (string * jsval)) {struct ps} : bool :=
         match ps with
         | [] => true
         | (k, v) :: ps =>
             match assoc k qs with
             | Some w => deepEqual v w
             | None => false
             end && each ps
         end) ps
  | VRegExp _ s f, VRegExp _ s' f' => String.eqb s s' && String.eqb f f'
  | _, _ => strict_equals x y
  end.

Definition isEqual_fn : jsval := VFunction 1.

(** The call [compareValues(x, y)]. *)
Definition compare (compareValues x y : jsval) : bool :=
  strict_equals compareValues isEqual_fn && deepEqual x y.

Definition isFunction (v : jsval) : bool := String.eqb (typeof v) "function".

Definition isArray (v : jsval) : bool :=
  match v with
  | VArray _ _ => true
  | _ => false
  end.

Definition isObject (v : jsval) : bool :=
  match v with
  | VObject _ _ => true
  | _ => false
  end.

Definition isSpy (v : jsval) : bool :=
  match v with
  | VSpy _ _ => true
  | _ => false
  end.

Definition isRegExp (v : jsval) : bool :=
  match v with
  | VRegExp _ _ _ => true
  | _ => false
  end.

Definition isA (object value : jsval) : bool :=
  match value with
  | VString "array" => isArray object
  | VString t => String.eqb (typeof object) t
  | _ => false
  end.

(** Modelled from the spec: [arrayContains] of ./TestUtils, which is not
    among the sources.  True if the value equals an element, or, when the
    value is an array, if each of its elements equals an element. *)
Definition arrayContains (array value compareValues : jsval) : bool :=
  match array with
  | VArray _ items =>
      existsb (fun item => compare compareValues item value) items
      || match value with
         | VArray _ targets =>
             forallb (fun target =>
               existsb (fun item => compare compareValues item target) items)
               targets
         | _ => false
         end
  | _ => false
  end.

(** Modelled from the spec: [objectContains] of ./TestUtils, which is not
    among the sources.  True if the value is an object each key of which
    the subject has, with an equal value. *)
Definition objectContains (object value compareValues : jsval) : bool :=
  match object, value with
  | VObject _ ps, VObject _ qs =>
      forallb (fun q : string * jsval =>
        match assoc q.1 ps with
        | Some v => compare compareValues v q.2
        | None => false
        end) qs
  | _, _ => false
  end.

(** Whether [t] occurs in [s]. *)
Definition occurs (t s : string) : bool :=
  match String.index 0 t s with
  | Some _ => true
  | None => false
  end.

(** Modelled from the spec: [stringContains] of ./TestUtils, which is not
    among the sources; substring containment. *)
Definition stringContains (string value : jsval) : bool :=
  match string, value with
  | VString s, VString t => occurs t s
  | _, _ => false
  end.

Definition RegExp_test (pattern s : jsval) : bool :=
  match pattern, s with
  | VRegExp _ source _, VString text => occurs source text
  | _, _ => false
  end.

Definition functionThrows (fn context args value : jsval) : bool := false.

(** The rendering of a value in a message: strings quoted, other values
    by their kind. *)
Definition inspect (v : jsval) : string :=
  match v with
  | VUndefined => "undefined"
  | VNull => "null"
  | VBool true => "true"
  | VBool false => "false"
  | VNumber _ => "[number]"
  | VString s => "'" ++ s ++ "'"
  | VArray _ _ => "[array]"
  | VObject _ _ => "[object]"
  | VRegExp _ source _ => "/" ++ source ++ "/"
  | VFunction _ => "[function]"
  | VSpy _ _ => "[spy]"
  end.

(** Modelled from the spec: the templating of the reporter; each
    placeholder [%s], in order, becomes the rendering of the next value. *)
Fixpoint substitute (template : string) (values : list jsval) : string :=
  match template with
  | String "%" (String "s" rest) =>
      match values with
      | v :: values => inspect v ++ substitute rest values
      | [] => inspect VUndefined ++ substitute rest []
      end
  | String c rest => String c (substitute rest values)
  | EmptyString => EmptyString
  end.

Definition render (template : jsval) (values : list jsval) : string :=
  match template with
  | VString t => substitute t values
  | _ => EmptyString
  end.

Definition collaborators : Collaborators :=
  Build_Collaborators deepEqual isEqual_fn isRegExp RegExp_test isSpy
    functionThrows isFunction isArray isObject isA arrayContains
    objectContains stringContains render.

(** An empty store, and the store after [expect(v)]. *)
Definition empty_heap : heap := mkHeap ∅ 1.

Definition expect (v : jsval) : positive * heap :=
  match @new_Expectation collaborators v empty_heap with
  | (Return this, h) => (this, h)
  | (Throw _, h) => (1%positive, h)
  end.

End Sample.

(** ** The vocabulary of the statements *)

Section Contracts.

Context `{Collaborators}.

(** A usage error is the failure of an assertion on the types of the
    subject or of an argument; its template takes no values. *)
Definition usage_error (template : string) : Error :=
  new_Error (render (VString template) []).

(** An assertion failure is the failure of the check itself; its message
    is the caller's, or else the default, over the subject and the
    argument. *)
Definition assertion_failure (message : jsval) (default : string)
    (a value : jsval) : Error :=
  new_Error (render (js_or message (VString default)) [a; value]).

Definition actual_must_be_a_number (name : string) : string :=
  "The " ++ quoted "actual" ++ " argument in expect(actual)." ++ name ++
  "() must be a number".

Definition value_must_be_a_number (name : string) : string :=
  "The " ++ quoted "value" ++ " argument in " ++ name ++
  "(value) must be a number".

(** What section 4.5 asks of an ordering predicate [m] called [name],
    whose default message says [words] and whose comparison is [op], on
    the wrapper [w] at [this]. *)
Definition ordering_contract (m : positive -> jsval -> jsval -> M positive)
    (name words : string) (op : spec_float -> spec_float -> bool)
    (this : positive) (w : Expectation) (h : heap) (value message : jsval)
  : Prop :=
  (typeof (actual w) <> "number" ->
     m this value message h
     = (Throw (usage_error (actual_must_be_a_number name)), h)) /\
  (typeof (actual w) = "number" -> typeof value <> "number" ->
     m this value message h
     = (Throw (usage_error (value_must_be_a_number name)), h)) /\
  (forall x y, actual w = VNumber x -> value = VNumber y ->
     m this value message h
     = (if op x y then Return this
        else Throw (assertion_failure message
                      ("Expected %s to be " ++ words ++ " %s")
                      (actual w) value), h)) /\
  (forall x, op S754_nan x = false /\ op x S754_nan = false).

(** Section 4.6 in the spec's words: the comparator in effect is deep
    equality unless a function is given, the message is the string found
    in the comparator's place if there is one, and containment is by the
    kind of the subject. *)
Definition comparator_in_effect (compareValues : jsval) : jsval :=
  match compareValues with
  | VString _ | VUndefined | VNull => isEqual_fn
  | _ => compareValues
  end.

Definition message_in_effect (compareValues message : jsval) : jsval :=
  match compareValues with
  | VString _ => compareValues
  | _ => message
  end.

Definition containment (a value comparator : jsval) : bool :=
  if isArray a then arrayContains a value comparator
  else if isObject a then objectContains a value comparator
  else stringContains a value.

(** The subjects [toInclude] and [toExclude] accept. *)
Definition includable (a : jsval) : bool :=
  isArray a || isObject a || String.eqb (typeof a) "string".

(** Two argument lists are equal element for element, and so of the same
    length. *)
Definition arguments_equal (xs ys : list jsval) : Prop :=
  Forall2 (fun x y => isEqual x y = true) xs ys.

(** What this file needs of [is-equal] on two arrays. *)
Definition isEqual_on_arrays : Prop :=
  forall a b xs ys,
    isEqual (VArray a xs) (VArray b ys) = true <-> arguments_equal xs ys.

End Contracts.


(** The chain [expect(f).withContext(c).withArgs(...xs).toThrow(v, msg)]. *)
Definition configured_toThrow `{Collaborators} (f c : jsval)
    (xs : list jsval) (v msg : jsval) : M positive :=
  this <- new_Expectation f ;;
  this <- withContext this c ;;
  this <- withArgs this xs ;;
  toThrow this v msg.

(** A method, as a function of its message, that treats a message that
    is not truthy as no message at all. *)
Definition ignores_a_falsy_message (m : jsval -> M positive) : Prop :=
  forall message, truthy message = false -> m message = m VUndefined.

(** ** Reasoning rules for the monad *)

(** [hoare P m Q]: from a store where [P] holds, [m] ends with an outcome
    and a store that [Q] relates. *)
Definition hoare {A} (P : heap -> Prop) (m : M A)
    (Q : outcome A -> heap -> Prop) : Prop :=
  forall h, P h -> Q (m h).1 (m h).2.

(** The receiver is a live wrapper whose subject is [a]. *)
Definition subject_is (this : positive) (a : jsval) (h : heap) : Prop :=
  exists w, wrappers h !! this = Some w /\ actual w = a.

(** A step keeps the invariant [I] and throws only errors in [E]. *)
Definition step {A} (I : heap -> Prop) (E : Error -> Prop) (m : M A) : Prop :=
  hoare I m (fun o h => I h /\ match o with Return _ => True | Throw e => E e end).

(** A method body keeps [I], throws only errors in [E], and returns
    [this] when it returns. *)
Definition chains (I : heap -> Prop) (E : Error -> Prop) (this : positive)
    (m : M positive) : Prop :=
  hoare I m (fun o h =>
    I h /\ match o with Return r => r = this | Throw e => E e end).

(** An invariant that does not read the allocation pointer and that no
    write to a field other than [actual] breaks. *)
Definition stable (I : heap -> Prop) : Prop :=
  (forall ws n n', I (mkHeap ws n) -> I (mkHeap ws n')) /\
  (forall ws n this w f,
      I (mkHeap ws n) -> ws !! this = Some w -> actual (f w) = actual w ->
      I (mkHeap (<[this := f w]> ws) n)).

(** The bindings of the prototype as a list: the class body, then one
    entry per alias, holding the method of its target. *)
Definition alias_entry `{Collaborators} (entry : string * string)
  : option (string * method) :=
  match list_to_map (M := gmap string method) class_body !! entry.2 with
  | Some m => Some (entry.1, m)
  | None => None
  end.

Definition bindings `{Collaborators} : list (string * method) :=
  class_body ++ omap alias_entry aliases.

Section Rules.

Context `{Collaborators}.
Context (I : heap -> Prop) (E : Error -> Prop).

Lemma step_ret {A} (a : A) : step I E (ret a).
Proof. intros h Hh. simpl. auto. Qed.

Lemma step_throw {A} (e : Error) : E e -> step I E (@throw A e).
Proof. intros He h Hh. simpl. auto. Qed.

Lemma step_bind {A B} (m : M A) (k : A -> M B) :
  step I E m -> (forall a, step I E (k a)) -> step I E (bind m k).
Proof.
  intros Hm Hk h Hh. unfold bind. specialize (Hm h Hh).
  destruct (m h) as [[a|e] h']; simpl in *.
  - apply Hk, Hm.
  - exact Hm.
Qed.

Lemma chains_bind {A} this (m : M A) (k : A -> M positive) :
  step I E m -> (forall a, chains I E this (k a)) -> chains I E this (bind m k).
Proof.
  intros Hm Hk h Hh. unfold bind. specialize (Hm h Hh).
  destruct (m h) as [[a|e] h']; simpl in *.
  - apply Hk, Hm.
  - exact Hm.
Qed.

Lemma chains_ret this : chains I E this (ret this).
Proof. intros h Hh. simpl. auto. Qed.

Lemma step_if {A} (b : bool) (m1 m2 : M A) :
  step I E m1 -> step I E m2 -> step I E (if b then m1 else m2).
Proof. by destruct b. Qed.

Lemma step_assert (condition : bool) messageFormat extraArgs :
  (forall msg, E (new_Error msg)) ->
  step I E (assert condition messageFormat extraArgs).
Proof.
  intros HE. unfold assert. apply step_if; [apply step_ret | by apply step_throw].
Qed.

Lemma step_read_this this :
  (forall msg, E (TypeError msg)) -> step I E (read_this this).
Proof.
  intros HE h Hh. unfold read_this. destruct (wrappers h !! this); simpl; auto.
Qed.

Lemma step_this_actual this :
  (forall msg, E (TypeError msg)) -> step I E (this_actual this).
Proof.
  intros HE. apply step_bind; [by apply step_read_this | intros; apply step_ret].
Qed.

Lemma step_this_context this :
  (forall msg, E (TypeError msg)) -> step I E (this_context this).
Proof.
  intros HE. apply step_bind; [by apply step_read_this | intros; apply step_ret].
Qed.

Lemma step_this_args this :
  (forall msg, E (TypeError msg)) -> step I E (this_args this).
Proof.
  intros HE. apply step_bind; [by apply step_read_this | intros; apply step_ret].
Qed.

Lemma step_spy_calls spy :
  (forall msg, E (TypeError msg)) -> step I E (spy_calls spy).
Proof.
  intros HE. destruct spy; simpl; first [apply step_ret | by apply step_throw].
Qed.

End Rules.

Section StableRules.

Context `{Collaborators}.
Context (I : heap -> Prop) (E : Error -> Prop).
Hypothesis I_stable : stable I.
Hypothesis E_Error : forall msg, E (new_Error msg).
Hypothesis E_TypeError : forall msg, E (TypeError msg).

Lemma step_alloc : step I E alloc.
Proof.
  intros [ws n] Hh. simpl. split; [|done]. by apply (proj1 I_stable ws n).
Qed.

Lemma step_new_array items : step I E (new_array items).
Proof. apply step_bind; [apply step_alloc | intros; apply step_ret]. Qed.

Lemma step_write_this this f :
  (forall w, actual (f w) = actual w) -> step I E (write_this this f).
Proof.
  intros Hf [ws n] Hh. unfold write_this; simpl.
  destruct (ws !! this) as [w|] eqn:Hw; simpl; [|by auto].
  split; [|done]. by apply (proj2 I_stable).
Qed.

Lemma step_Array_concat receiver xs : step I E (Array_concat receiver xs).
Proof.
  destruct receiver; simpl; first [apply step_new_array | by apply step_throw].
Qed.

Lemma step_try_catch {A} (E0 : Error -> Prop) (body : M A) handler :
  step I E0 body -> (forall e, step I E (handler e)) ->
  step I E (try_catch body handler).
Proof.
  intros Hb Hc h Hh. unfold try_catch. specialize (Hb h Hh).
  destruct (body h) as [[a|e] h']; simpl in *.
  - tauto.
  - apply Hc, Hb.
Qed.

(** One tactic for the bodies of the methods: they are sequences of
    field reads, assertions and field writes that end in [ret this]. *)
Ltac chain :=
  repeat first
    [ apply chains_ret
    | apply step_ret
    | apply step_assert
    | apply step_this_actual
    | apply step_this_context
    | apply step_this_args
    | apply step_spy_calls
    | apply step_new_array
    | apply step_Array_concat
    | apply step_write_this
    | apply step_if
    | apply chains_bind
    | apply step_bind
    | apply E_Error
    | apply E_TypeError
    | done
    | intros ].

Lemma toExist_chains this message : chains I E this (toExist this message).
Proof. unfold toExist. chain. Qed.

Lemma toNotExist_chains this message :
  chains I E this (toNotExist this message).
Proof. unfold toNotExist. chain. Qed.

Lemma toBe_chains this value message :
  chains I E this (toBe this value message).
Proof. unfold toBe. chain. Qed.

Lemma toNotBe_chains this value message :
  chains I E this (toNotBe this value message).
Proof. unfold toNotBe. chain. Qed.

Lemma toNotEqual_chains this value message :
  chains I E this (toNotEqual this value message).
Proof. unfold toNotEqual. chain. Qed.

Lemma toThrow_chains this value message :
  chains I E this (toThrow this value message).
Proof. unfold toThrow. chain. Qed.

Lemma toNotThrow_chains this value message :
  chains I E this (toNotThrow this value message).
Proof. unfold toNotThrow. chain. Qed.

Lemma toBeA_chains this value message :
  chains I E this (toBeA this value message).
Proof. unfold toBeA. chain. Qed.

Lemma toNotBeA_chains this value message :
  chains I E this (toNotBeA this value message).
Proof. unfold toNotBeA. chain. Qed.

Lemma toMatch_chains this pattern message :
  chains I E this (toMatch this pattern message).
Proof. unfold toMatch. chain. Qed.

Lemma toNotMatch_chains this pattern message :
  chains I E this (toNotMatch this pattern message).
Proof. unfold toNotMatch. chain. Qed.

Lemma toBeLessThan_chains this value message :
  chains I E this (toBeLessThan this value message).
Proof. unfold toBeLessThan. chain. Qed.

Lemma toBeLessThanOrEqualTo_chains this value message :
  chains I E this (toBeLessThanOrEqualTo this value message).
Proof. unfold toBeLessThanOrEqualTo. chain. Qed.

Lemma toBeGreaterThan_chains this value message :
  chains I E this (toBeGreaterThan this value message).
Proof. unfold toBeGreaterThan. chain. Qed.

Lemma toBeGreaterThanOrEqualTo_chains this value message :
  chains I E this (toBeGreaterThanOrEqualTo this value message).
Proof. unfold toBeGreaterThanOrEqualTo. chain. Qed.

Lemma toInclude_chains this value compareValues message :
  chains I E this (toInclude this value compareValues message).
Proof.
  unfold toInclude. destruct (String.eqb (typeof compareValues) "string"); chain.
Qed.

Lemma toExclude_chains this value compareValues message :
  chains I E this (toExclude this value compareValues message).
Proof.
  unfold toExclude. destruct (String.eqb (typeof compareValues) "string"); chain.
Qed.

Lemma toHaveBeenCalled_chains this message :
  chains I E this (toHaveBeenCalled this message).
Proof. unfold toHaveBeenCalled. chain. Qed.

Lemma toHaveBeenCalledWith_chains this rest :
  chains I E this (toHaveBeenCalledWith this rest).
Proof. unfold toHaveBeenCalledWith. chain. Qed.

Lemma toNotHaveBeenCalled_chains this message :
  chains I E this (toNotHaveBeenCalled this message).
Proof. unfold toNotHaveBeenCalled. chain. Qed.

Lemma withContext_chains this context :
  chains I E this (withContext this context).
Proof. unfold withContext. chain. Qed.

Lemma withArgs_chains this args :
  chains I E this (withArgs this args).
Proof. unfold withArgs. chain. Qed.

(** [toEqual] rethrows what its body threw, with the payload added. *)
Lemma toEqual_chains this value message :
  (forall name msg a, E (mkError name msg true (Some a) (Some value))) ->
  chains I E this (toEqual this value message).
Proof.
  intros HE. unfold toEqual. apply chains_bind; [|chain].
  apply step_try_catch with (E0 := fun _ => True); [chain|].
  intros e. apply step_bind; [chain|]. intros a. by apply step_throw.
Qed.

(** Every method of the class body; [toEqual] when [E] admits the errors
    that carry the payload. *)
Lemma class_body_chains name (m : method) this xs :
  (name, m) ∈ class_body ->
  name <> "toEqual" \/
    (forall n msg a v, E (mkError n msg true (Some a) (Some v))) ->
  chains I E this (m this xs).
Proof.
  intros Hin Hne. unfold class_body in Hin.
  repeat (apply elem_of_cons in Hin as [Hin|Hin];
          [injection Hin as -> -> | ]).
  all: try by apply elem_of_nil in Hin.
  - apply toExist_chains.
  - apply toNotExist_chains.
  - apply toBe_chains.
  - apply toNotBe_chains.
  - destruct Hne as [Hne|Hne]; [done | by apply toEqual_chains].
  - apply toNotEqual_chains.
  - apply toThrow_chains.
  - apply toNotThrow_chains.
  - apply toBeA_chains.
  - apply toNotBeA_chains.
  - apply toMatch_chains.
  - apply toNotMatch_chains.
  - apply toBeLessThan_chains.
  - apply toBeLessThanOrEqualTo_chains.
  - apply toBeGreaterThan_chains.
  - apply toBeGreaterThanOrEqualTo_chains.
  - apply toInclude_chains.
  - apply toExclude_chains.
  - apply toHaveBeenCalled_chains.
  - apply toHaveBeenCalledWith_chains.
  - apply toNotHaveBeenCalled_chains.
  - apply withContext_chains.
  - apply withArgs_chains.
Qed.

End StableRules.

(** ** Running a method on a live wrapper *)

Section Running.

Context `{Collaborators}.

Lemma this_actual_live this w h :
  wrappers h !! this = Some w -> this_actual this h = (Return (actual w), h).
Proof. intros Hw. unfold this_actual, bind, read_this. by rewrite Hw. Qed.

Lemma assert_true messageFormat extraArgs h :
  assert true messageFormat extraArgs h = (Return tt, h).
Proof. reflexivity. Qed.

Lemma assert_false messageFormat extraArgs h :
  assert false messageFormat extraArgs h
  = (Throw (new_Error (render messageFormat extraArgs)), h).
Proof. reflexivity. Qed.

(** A method that reads the subject, asserts one condition and returns
    [this]: it passes exactly when the condition holds. *)
Lemma read_assert_return this w h (cond : jsval -> bool)
    (template : jsval) (values : jsval -> list jsval) :
  wrappers h !! this = Some w ->
  (a <- this_actual this ;;
   assert (cond a) template (values a) ;;
   ret this) h
  = (if cond (actual w) then Return this
     else Throw (new_Error (render template (values (actual w)))), h).
Proof.
  intros Hw. unfold bind at 1. rewrite (this_actual_live _ _ _ Hw).
  unfold bind, assert. by destruct (cond (actual w)).
Qed.

Lemma strict_equals_typeof a b :
  strict_equals a b = true -> typeof a = typeof b.
Proof. by destruct a, b. Qed.

Lemma typeof_number a : typeof a = "number" -> exists x, a = VNumber x.
Proof. destruct a; try discriminate. by eexists. Qed.

Lemma typeof_string a : String.eqb (typeof a) "string" = true -> exists s, a = VString s.
Proof. destruct a; try discriminate. by eexists. Qed.

Lemma eqb_typeof_false a t : typeof a <> t -> String.eqb (typeof a) t = false.
Proof. intros Hne. by apply String.eqb_neq. Qed.

End Running.

(** ** Identity: [toBe] and [toNotBe] *)

Section Identity.

Context `{Collaborators}.

Lemma toBe_outcome this w h value message :
  wrappers h !! this = Some w ->
  toBe this value message h
  = (if strict_equals (actual w) value then Return this
     else Throw (assertion_failure message "Expected %s to be %s"
                   (actual w) value), h).
Proof.
  intros Hw. unfold toBe.
  apply (read_assert_return this w h (fun a => strict_equals a value)
           _ (fun a => [a; value]) Hw).
Qed.

Lemma toNotBe_outcome this w h value message :
  wrappers h !! this = Some w ->
  toNotBe this value message h
  = (if strict_equals (actual w) value
     then Throw (assertion_failure message "Expected %s to not be %s"
                   (actual w) value)
     else Return this, h).
Proof.
  intros Hw. unfold toNotBe.
  rewrite (read_assert_return this w h (fun a => strict_not_equals a value)
             _ (fun a => [a; value]) Hw).
  unfold strict_not_equals. by destruct (strict_equals (actual w) value).
Qed.

(** C5.  On a wrapper over any subject and for any argument, [toBe]
    passes exactly when the subject is strictly identical to the argument,
    [toNotBe] passes exactly when [toBe] fails (so never both pass and
    never both fail), values of different types are never identical, and
    with NaN for both the subject and the argument [toBe] fails and
    [toNotBe] passes. *)
Theorem toBe_toNotBe_complement this w h value message message' :
  wrappers h !! this = Some w ->
  passes (toBe this value message) h = strict_equals (actual w) value /\
  passes (toNotBe this value message') h
  = negb (passes (toBe this value message) h) /\
  (typeof (actual w) <> typeof value ->
   passes (toBe this value message) h = false) /\
  (actual w = VNumber S754_nan -> value = VNumber S754_nan ->
   passes (toBe this value message) h = false /\
   passes (toNotBe this value message') h = true).
Proof.
  intros Hw. unfold passes.
  rewrite (toBe_outcome _ _ _ _ _ Hw), (toNotBe_outcome _ _ _ _ _ Hw).
  destruct (strict_equals (actual w) value) eqn:Heq; simpl.
  - split; [done | split; [done | split]].
    + intros Hne. by apply strict_equals_typeof in Heq.
    + intros Ha Hv. rewrite Ha, Hv in Heq. discriminate.
  - by repeat split.
Qed.

End Identity.

(** An instance of C5: NaN against NaN. *)
Lemma toBe_toNotBe_complement_witness :
  let this := (Sample.expect (VNumber S754_nan)).1 in
  let h := (Sample.expect (VNumber S754_nan)).2 in
  passes (toBe (H := Sample.collaborators) this (VNumber S754_nan) VUndefined) h
  = false /\
  passes (toNotBe (H := Sample.collaborators) this (VNumber S754_nan) VUndefined) h
  = true.
Proof.
  intros this h.
  apply (toBe_toNotBe_complement (H := Sample.collaborators) this
           (mkExpectation (VNumber S754_nan) VUndefined VUndefined) h
           (VNumber S754_nan) VUndefined VUndefined);
    reflexivity.
Defined.

(** ** Containment: [toInclude] and [toExclude] *)

Section Containment.

Context `{Collaborators}.

Lemma toInclude_outcome this w h value compareValues message :
  wrappers h !! this = Some w ->
  includable (actual w) = true ->
  toInclude this value compareValues message h
  = (if containment (actual w) value (comparator_in_effect compareValues)
     then Return this
     else Throw (assertion_failure
                   (message_in_effect compareValues message)
                   "Expected %s to include %s" (actual w) value), h).
Proof.
  intros Hw Hinc. unfold toInclude, includable, containment in *.
  destruct compareValues; simpl;
    unfold bind at 1; rewrite (this_actual_live _ _ _ Hw);
    unfold bind at 1; rewrite Hinc, assert_true;
    unfold bind, assert, assertion_failure;
    by destruct (isArray (actual w)), (isObject (actual w));
      match goal with |- context [if ?b then ret tt else _] => destruct b end.
Qed.

Lemma toExclude_outcome this w h value compareValues message :
  wrappers h !! this = Some w ->
  includable (actual w) = true ->
  toExclude this value compareValues message h
  = (if containment (actual w) value (comparator_in_effect compareValues)
     then Throw (assertion_failure
                   (message_in_effect compareValues message)
                   "Expected %s to exclude %s" (actual w) value)
     else Return this, h).
Proof.
  intros Hw Hinc. unfold toExclude, includable, containment in *.
  destruct compareValues; simpl;
    unfold bind at 1; rewrite (this_actual_live _ _ _ Hw);
    unfold bind at 1; rewrite Hinc, assert_true;
    unfold bind, assert, assertion_failure;
    by destruct (isArray (actual w)), (isObject (actual w));
      match goal with
      | |- context [if negb ?b then ret tt else _] => destruct b
      end.
Qed.

(** C3.  On a subject that is an array, an object or a string, and for
    any value, comparator and message, [toInclude] passes exactly when the
    containment holds, [toExclude] passes exactly when the same
    containment, under the same comparator, does not hold, and so
    [toExclude] passes exactly when [toInclude] fails. *)
Theorem toExclude_negates_toInclude this w h value compareValues message :
  wrappers h !! this = Some w ->
  includable (actual w) = true ->
  passes (toInclude this value compareValues message) h
  = containment (actual w) value (comparator_in_effect compareValues) /\
  passes (toExclude this value compareValues message) h
  = negb (containment (actual w) value (comparator_in_effect compareValues)) /\
  passes (toExclude this value compareValues message) h
  = fails (toInclude this value compareValues message) h.
Proof.
  intros Hw Hinc. unfold fails, passes.
  rewrite (toInclude_outcome _ _ _ _ _ _ Hw Hinc),
          (toExclude_outcome _ _ _ _ _ _ Hw Hinc).
  by destruct (containment _ _ _).
Qed.

(** C7.  With a string where the comparator is expected, [toInclude] and
    [toExclude] do exactly what they do without a comparator and with that
    string for the message; on a subject they accept, the containment is
    computed with deep equality, and the failure carries that string, or
    the default message when the string is empty. *)
Theorem string_comparator_is_the_message this w h value s message :
  wrappers h !! this = Some w ->
  includable (actual w) = true ->
  toInclude this value (VString s) message h
  = toInclude this value VUndefined (VString s) h /\
  toExclude this value (VString s) message h
  = toExclude this value VUndefined (VString s) h /\
  passes (toInclude this value (VString s) message) h
  = containment (actual w) value isEqual_fn /\
  passes (toExclude this value (VString s) message) h
  = negb (containment (actual w) value isEqual_fn) /\
  (containment (actual w) value isEqual_fn = false ->
   thrown (toInclude this value (VString s) message) h
   = Some (assertion_failure (VString s) "Expected %s to include %s"
             (actual w) value)) /\
  (containment (actual w) value isEqual_fn = true ->
   thrown (toExclude this value (VString s) message) h
   = Some (assertion_failure (VString s) "Expected %s to exclude %s"
             (actual w) value)).
Proof.
  intros Hw Hinc. unfold passes, thrown.
  rewrite !(toInclude_outcome _ _ _ _ _ _ Hw Hinc),
          !(toExclude_outcome _ _ _ _ _ _ Hw Hinc).
  simpl. destruct (containment _ _ _); by repeat split.
Qed.

(** The equations of C7 need no live wrapper and no accepted subject:
    the two calls are the same computation. *)
Lemma string_comparator_shifts value s message this :
  toInclude this value (VString s) message
  = toInclude this value VUndefined (VString s) /\
  toExclude this value (VString s) message
  = toExclude this value VUndefined (VString s).
Proof. split; reflexivity. Qed.

End Containment.

(** An instance of C3: an array that holds the value. *)
Lemma toExclude_negates_toInclude_witness :
  let e := Sample.expect (VArray 5 [VString "a"; VString "b"]) in
  passes (toInclude (H := Sample.collaborators) e.1 (VString "b") VUndefined
            VUndefined) e.2 = true /\
  passes (toExclude (H := Sample.collaborators) e.1 (VString "b") VUndefined
            VUndefined) e.2 = false /\
  passes (toExclude (H := Sample.collaborators) e.1 (VString "b") VUndefined
            VUndefined) e.2
  = fails (toInclude (H := Sample.collaborators) e.1 (VString "b") VUndefined
            VUndefined) e.2.
Proof.
  intros e.
  apply (toExclude_negates_toInclude (H := Sample.collaborators) e.1
           (mkExpectation (VArray 5 [VString "a"; VString "b"])
              VUndefined VUndefined)
           e.2 (VString "b") VUndefined VUndefined);
    reflexivity.
Defined.

(** An instance of C7: a message in the comparator's place, on an array
    that does not hold the value. *)
Lemma string_comparator_is_the_message_witness :
  let e := Sample.expect (VArray 5 [VString "a"; VString "b"]) in
  thrown (toInclude (H := Sample.collaborators) e.1 (VString "c")
            (VString "no c in %s") VUndefined) e.2
  = Some (new_Error "no c in [array]").
Proof.
  intros e.
  apply (string_comparator_is_the_message (H := Sample.collaborators) e.1
           (mkExpectation (VArray 5 [VString "a"; VString "b"])
              VUndefined VUndefined)
           e.2 (VString "c") "no c in %s" VUndefined);
    reflexivity.
Defined.

(** ** Ordering *)

Section Ordering.

Context `{Collaborators}.

(** The common shape of the four ordering predicates. *)
Lemma ordering_outcome this w h value (op : spec_float -> spec_float -> bool)
    (t1 t2 template : jsval) :
  wrappers h !! this = Some w ->
  (a <- this_actual this ;;
   assert (String.eqb (typeof a) "number") t1 [] ;;
   assert (String.eqb (typeof value) "number") t2 [] ;;
   assert (compare_with op a value) template [a; value] ;;
   ret this) h
  = (if negb (String.eqb (typeof (actual w)) "number")
     then Throw (new_Error (render t1 []))
     else if negb (String.eqb (typeof value) "number")
     then Throw (new_Error (render t2 []))
     else if compare_with op (actual w) value then Return this
     else Throw (new_Error (render template [actual w; value])), h).
Proof.
  intros Hw. unfold bind at 1. rewrite (this_actual_live _ _ _ Hw).
  unfold bind, assert.
  destruct (String.eqb (typeof (actual w)) "number"); [|done].
  destruct (String.eqb (typeof value) "number"); [|done].
  by destruct (compare_with op (actual w) value).
Qed.

Lemma ordering_contract_holds m name words op this w h value message :
  (forall x, op S754_nan x = false /\ op x S754_nan = false) ->
  wrappers h !! this = Some w ->
  m this value message h
  = (if negb (String.eqb (typeof (actual w)) "number")
     then Throw (usage_error (actual_must_be_a_number name))
     else if negb (String.eqb (typeof value) "number")
     then Throw (usage_error (value_must_be_a_number name))
     else if compare_with op (actual w) value then Return this
     else Throw (assertion_failure message
                   ("Expected %s to be " ++ words ++ " %s")
                   (actual w) value), h) ->
  ordering_contract m name words op this w h value message.
Proof.
  unfold ordering_contract. intros Hnan Hw ->. repeat split.
  - intros Hne. by rewrite (eqb_typeof_false _ _ Hne).
  - intros (x & ->)%typeof_number Hne. by rewrite (eqb_typeof_false _ _ Hne).
  - intros x y -> ->. reflexivity.
  - apply Hnan.
  - apply Hnan.
Qed.

Lemma js_lt_nan x : js_lt S754_nan x = false /\ js_lt x S754_nan = false.
Proof. by destruct x. Qed.

Lemma js_le_nan x : js_le S754_nan x = false /\ js_le x S754_nan = false.
Proof. by destruct x. Qed.

Lemma js_gt_nan x : js_gt S754_nan x = false /\ js_gt x S754_nan = false.
Proof. by destruct x. Qed.

Lemma js_ge_nan x : js_ge S754_nan x = false /\ js_ge x S754_nan = false.
Proof. by destruct x. Qed.

(** C6.  Each of the four ordering predicates, on a live wrapper: if the
    subject is not a number it throws the usage error about the subject,
    and if the subject is a number and the argument is not it throws the
    usage error about the argument, in both cases whatever the comparison
    would give; on two numbers it returns when the comparison of the two
    doubles holds and otherwise throws the assertion failure; and the
    comparison is false as soon as one operand is NaN, so that a NaN gives
    an assertion failure and no usage error. *)
Theorem ordering_predicates_contract this w h value message :
  wrappers h !! this = Some w ->
  ordering_contract toBeLessThan "toBeLessThan" "less than" js_lt
    this w h value message /\
  ordering_contract toBeLessThanOrEqualTo "toBeLessThanOrEqualTo"
    "less than or equal to" js_le this w h value message /\
  ordering_contract toBeGreaterThan "toBeGreaterThan" "greater than" js_gt
    this w h value message /\
  ordering_contract toBeGreaterThanOrEqualTo "toBeGreaterThanOrEqualTo"
    "greater than or equal to" js_ge this w h value message.
Proof.
  intros Hw. split; [|split; [|split]].
  - apply ordering_contract_holds; [apply js_lt_nan | done |].
    apply (ordering_outcome this w h value js_lt _ _ _ Hw).
  - apply ordering_contract_holds; [apply js_le_nan | done |].
    apply (ordering_outcome this w h value js_le _ _ _ Hw).
  - apply ordering_contract_holds; [apply js_gt_nan | done |].
    apply (ordering_outcome this w h value js_gt _ _ _ Hw).
  - apply ordering_contract_holds; [apply js_ge_nan | done |].
    apply (ordering_outcome this w h value js_ge _ _ _ Hw).
Qed.

(** The usage errors and the default assertion failure come from
    different templates. *)
Lemma ordering_templates_differ :
  actual_must_be_a_number "toBeLessThan" <> "Expected %s to be less than %s" /\
  value_must_be_a_number "toBeLessThan" <> "Expected %s to be less than %s" /\
  actual_must_be_a_number "toBeLessThan" <> value_must_be_a_number "toBeLessThan".
Proof. by repeat split. Qed.

End Ordering.

(** An instance of C6: NaN against zero is an assertion failure, and a
    string against zero is a usage error. *)
Lemma ordering_predicates_contract_witness :
  let e := Sample.expect (VNumber S754_nan) in
  let e' := Sample.expect (VString "a") in
  toBeLessThan (H := Sample.collaborators) e.1 (VNumber (S754_zero false))
    VUndefined e.2
  = (Throw (new_Error "Expected [number] to be less than [number]"), e.2) /\
  toBeLessThan (H := Sample.collaborators) e'.1 (VNumber (S754_zero false))
    VUndefined e'.2
  = (Throw (new_Error
       ("The " ++ quoted "actual" ++
        " argument in expect(actual).toBeLessThan() must be a number")),
     e'.2).
Proof.
  intros e e'. split.
  - destruct (ordering_predicates_contract (H := Sample.collaborators) e.1
                (mkExpectation (VNumber S754_nan) VUndefined VUndefined)
                e.2 (VNumber (S754_zero false)) VUndefined eq_refl)
      as ((_ & _ & Hnumbers & _) & _).
    apply (Hnumbers S754_nan (S754_zero false)); reflexivity.
  - destruct (ordering_predicates_contract (H := Sample.collaborators) e'.1
                (mkExpectation (VString "a") VUndefined VUndefined)
                e'.2 (VNumber (S754_zero false)) VUndefined eq_refl)
      as ((Husage & _) & _).
    apply Husage. discriminate.
Defined.

(** ** Types: [toBeA] and [toNotBeA] *)

Section Types.

Context `{Collaborators}.

Lemma toBeA_outcome this w h value message :
  wrappers h !! this = Some w ->
  (isFunction value || String.eqb (typeof value) "string") = true ->
  toBeA this value message h
  = (if isA (actual w) value then Return this
     else Throw (assertion_failure message "Expected %s to be a %s"
                   (actual w) value), h).
Proof.
  intros Hw Hv. unfold toBeA. unfold bind at 1. rewrite Hv, assert_true.
  apply (read_assert_return this w h (fun a => isA a value)
           _ (fun a => [a; value]) Hw).
Qed.

Lemma toNotBeA_outcome this w h value message :
  wrappers h !! this = Some w ->
  (isFunction value || String.eqb (typeof value) "string") = true ->
  toNotBeA this value message h
  = (if isA (actual w) value
     then Throw (assertion_failure message "Expected %s to be a %s"
                   (actual w) value)
     else Return this, h).
Proof.
  intros Hw Hv. unfold toNotBeA. unfold bind at 1. rewrite Hv, assert_true.
  rewrite (read_assert_return this w h (fun a => negb (isA a value))
             _ (fun a => [a; value]) Hw).
  by destruct (isA (actual w) value).
Qed.

(** C10.  With a type argument that is a function or a string and no
    message of the caller's, [toNotBeA] fails exactly when the subject is
    of the type, and its failure is rendered from the template
    'Expected %s to be a %s' over the subject and the type; a failure of
    [toBeA] on a subject and a type is rendered from the same template
    over them, so the two messages are the same text. *)
Theorem toNotBeA_default_message_is_that_of_toBeA this w h value message :
  wrappers h !! this = Some w ->
  (isFunction value || String.eqb (typeof value) "string") = true ->
  truthy message = false ->
  fails (toNotBeA this value message) h = isA (actual w) value /\
  (isA (actual w) value = true ->
   thrown (toNotBeA this value message) h
   = Some (new_Error (render (VString "Expected %s to be a %s")
                        [actual w; value]))) /\
  (isA (actual w) value = false ->
   thrown (toBeA this value message) h
   = Some (new_Error (render (VString "Expected %s to be a %s")
                        [actual w; value]))).
Proof.
  intros Hw Hv Hm. unfold fails, passes, thrown.
  rewrite (toBeA_outcome _ _ _ _ _ Hw Hv), (toNotBeA_outcome _ _ _ _ _ Hw Hv).
  unfold assertion_failure, js_or. rewrite Hm.
  by destruct (isA (actual w) value).
Qed.

End Types.

(** An instance of C10: a string that is asserted not to be a string. *)
Lemma toNotBeA_default_message_is_that_of_toBeA_witness :
  let e := Sample.expect (VString "a") in
  thrown (toNotBeA (H := Sample.collaborators) e.1 (VString "string")
            VUndefined) e.2
  = Some (new_Error "Expected 'a' to be a 'string'").
Proof.
  intros e.
  apply (toNotBeA_default_message_is_that_of_toBeA (H := Sample.collaborators) e.1
           (mkExpectation (VString "a") VUndefined VUndefined)
           e.2 (VString "string") VUndefined);
    reflexivity.
Defined.

(** ** Spies: [toHaveBeenCalledWith] *)

Section Spies.

Context `{Collaborators}.

Lemma toHaveBeenCalledWith_outcome this w h a calls rest :
  wrappers h !! this = Some w ->
  actual w = VSpy a calls ->
  isSpy (actual w) = true ->
  (toHaveBeenCalledWith this rest h).1
  = if existsb (fun call =>
                  isEqual (call_arguments call) (VArray (next h) rest)) calls
    then Return this
    else Throw (new_Error (render (VString "spy was never called with %s")
                             [VArray (next h) rest])).
Proof.
  intros Hw Ha Hspy. unfold toHaveBeenCalledWith, new_array.
  unfold bind at 1. unfold bind at 1. unfold alloc at 1. simpl.
  unfold bind at 1.
  rewrite (this_actual_live this w (mkHeap (wrappers h) (Pos.succ (next h))) Hw).
  unfold bind at 1. rewrite Hspy, assert_true.
  rewrite Ha. unfold bind, spy_calls, ret, assert.
  by destruct (existsb _ calls).
Qed.

(** C8.  Provided [isEqual] holds of two arrays exactly when they are
    equal element for element: on a spy, [toHaveBeenCalledWith] passes if
    and only if one of the recorded calls has arguments equal to the
    expected ones element for element; a passing call therefore has a
    record with as many arguments as were expected, and when no record
    has that many the assertion fails. *)
Theorem toHaveBeenCalledWith_iff this w h a calls expectedArgs :
  isEqual_on_arrays ->
  wrappers h !! this = Some w ->
  actual w = VSpy a calls ->
  isSpy (actual w) = true ->
  (passes (toHaveBeenCalledWith this expectedArgs) h = true <->
   exists call, call ∈ calls /\ arguments_equal call.2 expectedArgs) /\
  (passes (toHaveBeenCalledWith this expectedArgs) h = true ->
   exists call, call ∈ calls /\ length call.2 = length expectedArgs) /\
  ((forall call, call ∈ calls -> length call.2 <> length expectedArgs) ->
   passes (toHaveBeenCalledWith this expectedArgs) h = false).
Proof.
  intros Heq Hw Ha Hspy.
  assert (Hiff : passes (toHaveBeenCalledWith this expectedArgs) h = true <->
    exists call, call ∈ calls /\ arguments_equal call.2 expectedArgs).
  { unfold passes.
    rewrite (toHaveBeenCalledWith_outcome _ _ _ _ _ _ Hw Ha Hspy).
    destruct (existsb _ calls) eqn:Hex.
    - split; [intros _ | done].
      apply existsb_exists in Hex as (call & Hin & Hcall).
      exists call. split; [by apply list_elem_of_In | by apply Heq in Hcall].
    - split; [done | intros (call & Hin & Hcall)].
      rewrite <- Hex. apply existsb_exists.
      exists call. split; [by apply list_elem_of_In | by apply Heq]. }
  split; [exact Hiff | split].
  - intros (call & Hin & Hcall)%Hiff. exists call.
    split; [done | by apply Forall2_length in Hcall].
  - intros Hlen. apply Bool.not_true_is_false.
    intros (call & Hin & Hcall)%Hiff.
    by apply Forall2_length, Hlen in Hcall.
Qed.

End Spies.

Lemma Sample_isEqual_on_arrays : isEqual_on_arrays (H := Sample.collaborators).
Proof.
  intros a b xs ys. unfold arguments_equal. simpl. clear a b.
  revert ys. induction xs as [|x xs IH]; intros [|y ys].
  - split; [constructor | done].
  - split; [done | inversion 1].
  - split; [done | inversion 1].
  - rewrite andb_true_iff, IH. split.
    + intros [Hx Hxs]. by constructor.
    + inversion 1; subst. by split.
Qed.

(** An instance of C8: a spy called twice, expected with the arguments of
    its second call. *)
Lemma toHaveBeenCalledWith_iff_witness :
  let spy := VSpy 9 [(10, [VString "a"]); (11, [VString "a"; VString "b"])]%positive in
  let e := Sample.expect spy in
  passes (toHaveBeenCalledWith (H := Sample.collaborators) e.1
            [VString "a"; VString "b"]) e.2 = true.
Proof.
  intros spy e.
  apply (toHaveBeenCalledWith_iff (H := Sample.collaborators) e.1
           (mkExpectation spy VNull (VArray 2 [])) e.2 9
           [(10, [VString "a"]); (11, [VString "a"; VString "b"])]%positive
           [VString "a"; VString "b"] Sample_isEqual_on_arrays
           eq_refl eq_refl eq_refl).
  exists (11%positive, [VString "a"; VString "b"]). split.
  - apply list_elem_of_further, list_elem_of_here.
  - by repeat constructor.
Defined.

(** ** The prototype: aliases, chaining and the subject *)

Section Prototype.

Context `{Collaborators}.

Lemma prototype_bindings : prototype = list_to_map bindings.
Proof. reflexivity. Qed.

(** A name bound in the prototype is bound to a method of the class
    body, which the class body has under that name or under the name the
    alias table gives for it. *)
Lemma prototype_lookup name m :
  prototype !! name = Some m ->
  exists name', (name', m) ∈ class_body /\
                (name' = name \/ (name, name') ∈ aliases).
Proof.
  rewrite prototype_bindings. intros Hin%elem_of_list_to_map_2.
  unfold bindings in Hin. apply elem_of_app in Hin as [Hin|Hin].
  - exists name. auto.
  - apply list_elem_of_omap in Hin as (entry & Hin & Hentry).
    unfold alias_entry in Hentry.
    destruct (list_to_map class_body !! entry.2) as [m'|] eqn:Hm';
      [|discriminate].
    injection Hentry as <- <-.
    apply elem_of_list_to_map_2 in Hm'. exists entry.2.
    split; [exact Hm' | right; by destruct entry].
Qed.

Lemma toEqual_has_no_alias name : (name, "toEqual") ∉ aliases.
Proof.
  unfold aliases. intros Hin.
  repeat (apply elem_of_cons in Hin as [Hin|Hin]; [discriminate|]).
  by apply elem_of_nil in Hin.
Qed.

Lemma stable_subject_is this a : stable (subject_is this a).
Proof.
  split.
  - by intros ws n n'.
  - intros ws n this' w f (w0 & Hw0 & Ha) Hw Hf. unfold subject_is. simpl in *.
    destruct (decide (this' = this)) as [->|Hne].
    + exists (f w). rewrite lookup_insert_eq. split; [done|].
      rewrite Hf. congruence.
    + exists w0. by rewrite lookup_insert_ne.
Qed.

Lemma stable_True : stable (fun _ => True).
Proof. by split. Qed.

(** C4.  For every pair of the alias table, the prototype binds the
    alias and its target to the same method, so a call by the alias is
    the same computation as the call by the target: same outcome, same
    error, same store. *)
Theorem alias_is_its_target alias target :
  (alias, target) ∈ aliases ->
  (exists m, prototype !! alias = Some m /\ prototype !! target = Some m) /\
  (forall this xs h,
      call_method alias this xs h = call_method target this xs h) /\
  (forall this xs h,
      passes (call_method alias this xs) h
      = passes (call_method target this xs) h /\
      thrown (call_method alias this xs) h
      = thrown (call_method target this xs) h).
Proof.
  intros Hin.
  assert (Hsame : prototype !! alias = prototype !! target /\
                  is_Some (prototype !! target)).
  { unfold aliases in Hin.
    repeat (apply elem_of_cons in Hin as [Hin|Hin];
            [injection Hin as -> ->; split; [reflexivity | by eexists] | ]).
    by apply elem_of_nil in Hin. }
  destruct Hsame as [Hsame [m Hm]].
  assert (Hcall : forall this xs h,
             call_method alias this xs h = call_method target this xs h).
  { intros. unfold call_method.
    change (positive -> list jsval -> M positive) with method.
    by rewrite Hsame, Hm. }
  split; [exists m; rewrite Hsame; split; exact Hm | split; [exact Hcall |]].
  intros. unfold passes, thrown. rewrite Hcall. split; reflexivity.
Qed.

(** C9.  Whatever method the prototype binds to a name, alias or not,
    predicate or configuration method: called on a live wrapper with any
    arguments, it returns its receiver if it returns, and, whether it
    returns or throws, the receiver is then still a live wrapper with the
    subject it had. *)
Theorem methods_return_this_and_keep_the_subject name m this w xs h :
  prototype !! name = Some m ->
  wrappers h !! this = Some w ->
  (forall r, (m this xs h).1 = Return r -> r = this) /\
  (exists w', wrappers (m this xs h).2 !! this = Some w' /\
              actual w' = actual w).
Proof.
  intros (name' & Hin & _)%prototype_lookup Hw.
  pose proof (class_body_chains (subject_is this (actual w)) (fun _ => True)
                (stable_subject_is this (actual w))
                (fun _ => Logic.I) (fun _ => Logic.I) name' m this xs Hin
                (or_intror (fun _ _ _ _ => Logic.I)) h) as Hchain.
  destruct Hchain as [Hsubject Hresult]; [by exists w|].
  split; [|exact Hsubject].
  intros r Hr. by rewrite Hr in Hresult.
Qed.

Lemma toEqual_outcome this w h value message :
  wrappers h !! this = Some w ->
  toEqual this value message h
  = (if isEqual (actual w) value then Return this
     else Throw (mkError "Error"
                   (render (js_or message (VString "Expected %s to equal %s"))
                      [actual w; value])
                   true (Some (actual w)) (Some value)), h).
Proof.
  intros Hw. unfold toEqual, bind at 1, try_catch, bind at 1.
  rewrite (this_actual_live _ _ _ Hw). unfold assert.
  destruct (isEqual (actual w) value); [done|]. simpl.
  unfold bind at 1. by rewrite (this_actual_live _ _ _ Hw).
Qed.

(** C2.  On a live wrapper [toEqual] fails exactly when the subject and
    the argument are not deeply equal, and the error it then throws has
    the flag set and holds the subject and the argument.  An error thrown
    by any other method of the prototype, on any receiver, arguments and
    store, has no flag and holds no values; so for [toNotEqual]. *)
Theorem toEqual_alone_carries_the_diff this w h value message :
  wrappers h !! this = Some w ->
  fails (toEqual this value message) h = negb (isEqual (actual w) value) /\
  (forall e, thrown (toEqual this value message) h = Some e ->
             has_diff_payload e (actual w) value) /\
  (forall name m this' xs h' e,
      prototype !! name = Some m -> name <> "toEqual" ->
      thrown (m this' xs) h' = Some e -> no_diff_payload e) /\
  (forall e, thrown (toNotEqual this value message) h = Some e ->
             no_diff_payload e).
Proof.
  intros Hw.
  assert (Hothers : forall name m this' xs h' e,
             prototype !! name = Some m -> name <> "toEqual" ->
             thrown (m this' xs) h' = Some e -> no_diff_payload e).
  { intros name m this' xs h' e (name' & Hin & Hname)%prototype_lookup Hne.
    assert (name' <> "toEqual") as Hne'.
    { destruct Hname as [->|Halias]; [done|].
      intros ->. by apply toEqual_has_no_alias in Halias. }
    pose proof (class_body_chains (fun _ => True) no_diff_payload stable_True
                  (fun _ => conj eq_refl (conj eq_refl eq_refl))
                  (fun _ => conj eq_refl (conj eq_refl eq_refl))
                  name' m this' xs Hin (or_introl Hne') h' Logic.I)
      as [_ Hresult].
    unfold thrown. destruct (m this' xs h').1; [done|].
    by intros [= <-]. }
  unfold fails, passes, thrown. rewrite (toEqual_outcome _ _ _ _ _ Hw).
  split; [by destruct (isEqual _ _)|]. split; [|split; [exact Hothers|]].
  - destruct (isEqual _ _); [done|]. by intros e [= <-].
  - intros e He.
    apply (Hothers "toNotEqual"
             (fun this xs => toNotEqual this (arg 0 xs) (arg 1 xs))
             this [value; message] h e); [reflexivity | discriminate | exact He].
Qed.

End Prototype.

(** An instance of C4: [toBeAn] and [toBeA]. *)
Lemma alias_is_its_target_witness :
  let e := Sample.expect (VString "a") in
  call_method (H := Sample.collaborators) "toBeAn" e.1 [VString "number"] e.2
  = call_method (H := Sample.collaborators) "toBeA" e.1 [VString "number"] e.2.
Proof.
  intros e.
  apply (alias_is_its_target (H := Sample.collaborators) "toBeAn" "toBeA").
  apply list_elem_of_here.
Defined.

(** An instance of C9: [withArgs] on a wrapper over a function. *)
Lemma methods_return_this_and_keep_the_subject_witness :
  let e := Sample.expect (VFunction 9) in
  let r := withArgs (H := Sample.collaborators) e.1 [VString "a"] e.2 in
  (forall r', r.1 = Return r' -> r' = e.1) /\
  (exists w', wrappers r.2 !! e.1 = Some w' /\ actual w' = VFunction 9).
Proof.
  intros e r.
  apply (methods_return_this_and_keep_the_subject (H := Sample.collaborators)
           "withArgs" (fun this xs => withArgs this xs) e.1
           (mkExpectation (VFunction 9) VNull (VArray 2 []))
           [VString "a"] e.2);
    reflexivity.
Defined.

(** An instance of C2: two different strings. *)
Lemma toEqual_alone_carries_the_diff_witness :
  let e := Sample.expect (VString "a") in
  thrown (toEqual (H := Sample.collaborators) e.1 (VString "b") VUndefined) e.2
  = Some (mkError "Error" "Expected 'a' to equal 'b'" true
            (Some (VString "a")) (Some (VString "b"))) /\
  has_diff_payload
    (mkError "Error" "Expected 'a' to equal 'b'" true
       (Some (VString "a")) (Some (VString "b")))
    (VString "a") (VString "b").
Proof.
  intros e. split; [reflexivity|].
  apply (toEqual_alone_carries_the_diff (H := Sample.collaborators) e.1
           (mkExpectation (VString "a") VUndefined VUndefined) e.2
           (VString "b") VUndefined eq_refl).
  reflexivity.
Defined.

(** ** Configuration: [withArgs] *)

Section Configuration.

Context `{Collaborators}.

(** What the constructor leaves: a live wrapper over the value, with an
    empty argument list when the value is a function. *)
Lemma new_Expectation_outcome a h :
  exists h',
    new_Expectation a h = (Return (next h), h') /\
    exists w, wrappers h' !! next h = Some w /\ actual w = a /\
              (isFunction a = true ->
               context w = VNull /\ exists l, args w = VArray l []).
Proof.
  unfold new_Expectation, bind, alloc, write_this, new_array, bind, alloc, ret.
  simpl. destruct (isFunction a); simpl.
  - rewrite lookup_insert_eq. simpl. rewrite lookup_insert_eq. simpl.
    eexists. split; [reflexivity|]. simpl. rewrite lookup_insert_eq.
    eexists. split; [reflexivity|]. simpl. split; [done|].
    intros _. split; [done | by eexists].
  - eexists. split; [reflexivity|]. simpl. rewrite lookup_insert_eq.
    eexists. split; [reflexivity|]. by split.
Qed.

(** [withArgs] on a function: it returns the wrapper; with no argument
    the store is as it was, and otherwise the argument list is a new
    array, the old elements followed by what [concat] makes of the
    arguments. *)
Lemma withArgs_outcome this w h l items xs :
  wrappers h !! this = Some w ->
  isFunction (actual w) = true ->
  args w = VArray l items ->
  withArgs this xs h
  = (Return this,
     if (0 <? length xs)%nat
     then mkHeap (<[this := set_args (VArray (next h) (concat_items items xs)) w]>
                    (wrappers h)) (Pos.succ (next h))
     else h).
Proof.
  intros Hw Hf Hargs. unfold withArgs.
  unfold bind at 1. rewrite (this_actual_live _ _ _ Hw).
  unfold bind at 1. rewrite Hf, assert_true.
  destruct (0 <? length xs)%nat; [|reflexivity].
  unfold bind, this_args, bind, read_this, ret. rewrite Hw, Hargs. simpl.
  unfold write_this. simpl. by rewrite Hw.
Qed.


End Configuration.

(** C1, where the code departs from it.  On a wrapper over a function
    with an empty argument list, [withArgs] with the one argument
    ['a', 'b'], an array, returns the wrapper and leaves the argument
    list ['a', 'b'], of two strings: the elements of the argument, not
    the argument. *)
Theorem withArgs_spreads_an_array_argument :
  let e := Sample.expect (VFunction 9) in
  let pair := VArray 7 [VString "a"; VString "b"] in
  let r := withArgs (H := Sample.collaborators) e.1 [pair] e.2 in
  args <$> wrappers e.2 !! e.1 = Some (VArray 2 []) /\
  r.1 = Return e.1 /\
  args <$> wrappers r.2 !! e.1 = Some (VArray 3 [VString "a"; VString "b"]) /\
  args <$> wrappers r.2 !! e.1 <> Some (VArray 3 [pair]).
Proof. by repeat split. Qed.

(** ** The constructor *)

Section Constructor.

Context `{Collaborators}.


Lemma new_Expectation_function a h :
  isFunction a = true ->
  new_Expectation a h
  = (Return (next h),
     mkHeap (<[next h := mkExpectation a VNull (VArray (Pos.succ (next h)) [])]>
               (wrappers h))
            (Pos.succ (Pos.succ (next h)))).
Proof.
  intros Hf.
  unfold new_Expectation, bind, alloc, write_this, new_array, bind, alloc, ret.
  simpl. rewrite Hf. simpl.
  rewrite lookup_insert_eq. simpl. rewrite lookup_insert_eq. simpl.
  by rewrite !insert_insert_eq.
Qed.

End Constructor.

(** ** Truthiness and deep equality *)

Section Complements.

Context `{Collaborators}.

Lemma toExist_outcome this w h message :
  wrappers h !! this = Some w ->
  toExist this message h
  = (if truthy (actual w) then Return this
     else Throw (new_Error
                   (render (js_or message (VString "Expected %s to exist"))
                      [actual w])), h).
Proof.
  intros Hw. unfold toExist.
  apply (read_assert_return this w h truthy _ (fun a => [a]) Hw).
Qed.

Lemma toNotExist_outcome this w h message :
  wrappers h !! this = Some w ->
  toNotExist this message h
  = (if truthy (actual w)
     then Throw (new_Error
                   (render (js_or message (VString "Expected %s to not exist"))
                      [actual w]))
     else Return this, h).
Proof.
  intros Hw. unfold toNotExist.
  rewrite (read_assert_return this w h (fun a => negb (truthy a))
             _ (fun a => [a]) Hw).
  by destruct (truthy (actual w)).
Qed.

(** X2.  On a live wrapper [toExist] passes exactly when the subject is
    truthy and [toNotExist] exactly when it is not, so exactly one of the
    two passes; the subjects on which [toExist] fails are [undefined],
    [null], [false], the zeros, NaN and the empty string, and no other. *)
Theorem toExist_toNotExist_complement this w h message message' :
  wrappers h !! this = Some w ->
  passes (toExist this message) h = truthy (actual w) /\
  passes (toNotExist this message') h = negb (passes (toExist this message) h) /\
  (passes (toExist this message) h = false <->
   actual w = VUndefined \/ actual w = VNull \/ actual w = VBool false \/
   (exists s, actual w = VNumber (S754_zero s)) \/
   actual w = VNumber S754_nan \/ actual w = VString EmptyString).
Proof.
  intros Hw. unfold passes.
  rewrite (toExist_outcome _ _ _ _ Hw), (toNotExist_outcome _ _ _ _ Hw).
  split; [by destruct (truthy _) | split; [by destruct (truthy _)|]].
  destruct (actual w) as [| |[|]|[s|s| |s m e]|[|c s]| | | | |];
    simpl; (split; [intros Hp; try discriminate Hp; eauto 10 |]).
  all: intros [Hc|[Hc|[Hc|[[s' Hc]|[Hc|Hc]]]]]; congruence.
Qed.

Lemma toNotEqual_outcome this w h value message :
  wrappers h !! this = Some w ->
  toNotEqual this value message h
  = (if isEqual (actual w) value
     then Throw (assertion_failure message "Expected %s to not equal %s"
                   (actual w) value)
     else Return this, h).
Proof.
  intros Hw. unfold toNotEqual.
  rewrite (read_assert_return this w h (fun a => negb (isEqual a value))
             _ (fun a => [a; value]) Hw).
  by destruct (isEqual (actual w) value).
Qed.

(** X3.  On a live wrapper [toEqual] passes exactly when [isEqual] holds
    of the subject and the argument and [toNotEqual] exactly when it does
    not, so exactly one of the two passes; neither changes the store; and
    the error [toEqual] rethrows keeps the name and the message of the
    assertion failure, rendered from the caller's message or the default
    one. *)
Theorem toEqual_toNotEqual_complement this w h value message message' :
  wrappers h !! this = Some w ->
  passes (toEqual this value message) h = isEqual (actual w) value /\
  passes (toNotEqual this value message') h
  = negb (passes (toEqual this value message) h) /\
  (toEqual this value message h).2 = h /\
  (toNotEqual this value message' h).2 = h /\
  (forall e, thrown (toEqual this value message) h = Some e ->
     err_name e = "Error" /\
     err_message e
     = err_message (assertion_failure message "Expected %s to equal %s"
                      (actual w) value)).
Proof.
  intros Hw. unfold passes, thrown.
  rewrite (toEqual_outcome _ _ _ _ _ Hw), (toNotEqual_outcome _ _ _ _ _ Hw).
  destruct (isEqual (actual w) value); simpl.
  - by repeat split.
  - split; [done | split; [done | split; [done | split; [done|]]]].
    by intros e [= <-].
Qed.

End Complements.

(** An instance of X2: the empty string does not exist. *)
Lemma toExist_toNotExist_complement_witness :
  let e := Sample.expect (VString EmptyString) in
  passes (toExist (H := Sample.collaborators) e.1 VUndefined) e.2 = false /\
  passes (toNotExist (H := Sample.collaborators) e.1 VUndefined) e.2 = true.
Proof.
  intros e.
  destruct (toExist_toNotExist_complement (H := Sample.collaborators) e.1
              (mkExpectation (VString EmptyString) VUndefined VUndefined)
              e.2 VUndefined VUndefined eq_refl) as (Hexist & Hnot & _).
  by rewrite Hnot, Hexist.
Defined.

(** An instance of X3: two arrays, equal element for element. *)
Lemma toEqual_toNotEqual_complement_witness :
  let e := Sample.expect (VArray 5 [VString "a"; VString "b"]) in
  let other := VArray 6 [VString "a"; VString "b"] in
  passes (toEqual (H := Sample.collaborators) e.1 other VUndefined) e.2 = true /\
  passes (toNotEqual (H := Sample.collaborators) e.1 other VUndefined) e.2
  = false.
Proof.
  intros e other.
  destruct (toEqual_toNotEqual_complement (H := Sample.collaborators) e.1
              (mkExpectation (VArray 5 [VString "a"; VString "b"])
                 VUndefined VUndefined)
              e.2 other VUndefined VUndefined eq_refl) as (Heq & Hne & _).
  by rewrite Hne, Heq.
Defined.

(** ** Usage errors and complements of the other pairs *)

Section Pairs.

Context `{Collaborators}.

Lemma this_context_live this w h :
  wrappers h !! this = Some w -> this_context this h = (Return (context w), h).
Proof. intros Hw. unfold this_context, bind, read_this. by rewrite Hw. Qed.

Lemma this_args_live this w h :
  wrappers h !! this = Some w -> this_args this h = (Return (args w), h).
Proof. intros Hw. unfold this_args, bind, read_this. by rewrite Hw. Qed.

Lemma toThrow_outcome this w h value message :
  wrappers h !! this = Some w ->
  toThrow this value message h
  = (if negb (isFunction (actual w))
     then Throw (new_Error (render
            (VString ("The " ++ quoted "actual" ++
               " argument in expect(actual).toThrow() must be a function, %s was given"))
            [actual w]))
     else if functionThrows (actual w) (context w) (args w) value
     then Return this
     else Throw (assertion_failure message "Expected %s to throw %s"
                   (actual w) (js_or value (VString "an error"))), h).
Proof.
  intros Hw. unfold toThrow.
  unfold bind at 1. rewrite (this_actual_live _ _ _ Hw).
  unfold bind at 1, assert at 1. destruct (isFunction (actual w)); [|done].
  unfold ret at 1.
  unfold bind at 1. rewrite (this_context_live _ _ _ Hw).
  unfold bind at 1. rewrite (this_args_live _ _ _ Hw).
  unfold bind, assert. by destruct (functionThrows _ _ _ _).
Qed.

Lemma toNotThrow_outcome this w h value message :
  wrappers h !! this = Some w ->
  toNotThrow this value message h
  = (if negb (isFunction (actual w))
     then Throw (new_Error (render
            (VString ("The " ++ quoted "actual" ++
               " argument in expect(actual).toNotThrow() must be a function, %s was given"))
            [actual w]))
     else if functionThrows (actual w) (context w) (args w) value
     then Throw (assertion_failure message "Expected %s to not throw %s"
                   (actual w) (js_or value (VString "an error")))
     else Return this, h).
Proof.
  intros Hw. unfold toNotThrow.
  unfold bind at 1. rewrite (this_actual_live _ _ _ Hw).
  unfold bind at 1, assert at 1. destruct (isFunction (actual w)); [|done].
  unfold ret at 1.
  unfold bind at 1. rewrite (this_context_live _ _ _ Hw).
  unfold bind at 1. rewrite (this_args_live _ _ _ Hw).
  unfold bind, assert. by destruct (functionThrows _ _ _ _).
Qed.

(** X4.  On a live wrapper whose subject is no function, [toThrow] and
    [toNotThrow] throw their usage error, rendered over the subject,
    whatever the expected error and the message.  On a function,
    [toThrow] passes exactly when [functionThrows] holds of the subject,
    the stored context, the stored argument list and the expected error,
    [toNotThrow] passes exactly when [toThrow] fails, and the failure of
    [toThrow] names the expected error, or 'an error' when none is
    given. *)
Theorem toThrow_toNotThrow_contract this w h value message message' :
  wrappers h !! this = Some w ->
  (isFunction (actual w) = false ->
   toThrow this value message h
   = (Throw (new_Error (render
        (VString ("The " ++ quoted "actual" ++
           " argument in expect(actual).toThrow() must be a function, %s was given"))
        [actual w])), h) /\
   toNotThrow this value message' h
   = (Throw (new_Error (render
        (VString ("The " ++ quoted "actual" ++
           " argument in expect(actual).toNotThrow() must be a function, %s was given"))
        [actual w])), h)) /\
  (isFunction (actual w) = true ->
   passes (toThrow this value message) h
   = functionThrows (actual w) (context w) (args w) value /\
   passes (toNotThrow this value message') h
   = negb (passes (toThrow this value message) h) /\
   (functionThrows (actual w) (context w) (args w) value = false ->
    thrown (toThrow this value message) h
    = Some (new_Error (render
              (js_or message (VString "Expected %s to throw %s"))
              [actual w; js_or value (VString "an error")])))).
Proof.
  intros Hw. unfold passes, thrown.
  rewrite (toThrow_outcome _ _ _ _ _ Hw), (toNotThrow_outcome _ _ _ _ _ Hw).
  split; intros ->; simpl; [done|].
  by destruct (functionThrows _ _ _ _).
Qed.

(** X5.  With a type argument that is neither a function nor a string,
    [toBeA] and [toNotBeA] throw their usage error before they look at
    the wrapper, on any store.  With a function or a string, on a live
    wrapper, [toBeA] passes exactly when [isA] holds of the subject and
    the type, and [toNotBeA] passes exactly when [toBeA] fails. *)
Theorem toBeA_toNotBeA_contract this w h value message message' :
  wrappers h !! this = Some w ->
  ((isFunction value || String.eqb (typeof value) "string") = false ->
   forall this' h',
     toBeA this' value message h'
     = (Throw (usage_error ("The " ++ quoted "value" ++
          " argument in toBeA(value) must be a function or a string")), h') /\
     toNotBeA this' value message' h'
     = (Throw (usage_error ("The " ++ quoted "value" ++
          " argument in toNotBeA(value) must be a function or a string")), h')) /\
  ((isFunction value || String.eqb (typeof value) "string") = true ->
   passes (toBeA this value message) h = isA (actual w) value /\
   passes (toNotBeA this value message') h
   = negb (passes (toBeA this value message) h)).
Proof.
  intros Hw. split; intros Hv.
  - intros this' h'. unfold toBeA, toNotBeA.
    split; unfold bind at 1; by rewrite Hv.
  - unfold passes.
    rewrite (toBeA_outcome _ _ _ _ _ Hw Hv), (toNotBeA_outcome _ _ _ _ _ Hw Hv).
    by destruct (isA (actual w) value).
Qed.

(** The common shape of [toMatch] and [toNotMatch]. *)
Lemma match_outcome this w h (c2 : bool) (c3 : jsval -> bool)
    (t1 t2 template : jsval) (values : jsval -> list jsval) :
  wrappers h !! this = Some w ->
  (a <- this_actual this ;;
   assert (String.eqb (typeof a) "string") t1 [] ;;
   assert c2 t2 [] ;;
   assert (c3 a) template (values a) ;;
   ret this) h
  = (if negb (String.eqb (typeof (actual w)) "string")
     then Throw (new_Error (render t1 []))
     else if negb c2 then Throw (new_Error (render t2 []))
     else if c3 (actual w) then Return this
     else Throw (new_Error (render template (values (actual w)))), h).
Proof.
  intros Hw. unfold bind at 1. rewrite (this_actual_live _ _ _ Hw).
  unfold bind, assert.
  destruct (String.eqb (typeof (actual w)) "string"); [|done].
  destruct c2; [|done]. by destruct (c3 (actual w)).
Qed.

(** X6.  On a live wrapper, [toMatch] and [toNotMatch] throw the usage
    error about the subject when it is no string, whatever the pattern;
    on a string they throw the usage error about the pattern when it is no
    regular expression; and on a string and a regular expression
    [toMatch] passes exactly when the pattern's test of the subject holds
    and [toNotMatch] exactly when [toMatch] fails. *)
Theorem toMatch_toNotMatch_contract this w h pattern message message' :
  wrappers h !! this = Some w ->
  (String.eqb (typeof (actual w)) "string" = false ->
   toMatch this pattern message h
   = (Throw (usage_error ("The " ++ quoted "actual" ++
        " argument in expect(actual).toMatch() must be a string")), h) /\
   toNotMatch this pattern message' h
   = (Throw (usage_error ("The " ++ quoted "actual" ++
        " argument in expect(actual).toNotMatch() must be a string")), h)) /\
  (String.eqb (typeof (actual w)) "string" = true ->
   isRegExp pattern = false ->
   toMatch this pattern message h
   = (Throw (usage_error ("The " ++ quoted "value" ++
        " argument in toMatch(value) must be a RegExp")), h) /\
   toNotMatch this pattern message' h
   = (Throw (usage_error ("The " ++ quoted "value" ++
        " argument in toNotMatch(value) must be a RegExp")), h)) /\
  (String.eqb (typeof (actual w)) "string" = true ->
   isRegExp pattern = true ->
   passes (toMatch this pattern message) h = RegExp_test pattern (actual w) /\
   passes (toNotMatch this pattern message') h
   = negb (passes (toMatch this pattern message) h)).
Proof.
  intros Hw. unfold passes, toMatch, toNotMatch.
  rewrite (match_outcome this w h (isRegExp pattern)
             (fun a => RegExp_test pattern a) _ _ _
             (fun a => [a; pattern]) Hw).
  rewrite (match_outcome this w h (isRegExp pattern)
             (fun a => negb (RegExp_test pattern a)) _ _ _
             (fun a => [a; pattern]) Hw).
  split; [|split].
  - by intros ->.
  - by intros -> ->.
  - intros -> ->. simpl. by destruct (RegExp_test pattern (actual w)).
Qed.

(** X7.  On a live wrapper whose subject is neither an array, nor an
    object, nor a string, [toInclude] and [toExclude] throw their usage
    error, whatever the value, the comparator and the message, and leave
    the store as it was. *)
Theorem toInclude_toExclude_usage_error this w h value compareValues message :
  wrappers h !! this = Some w ->
  includable (actual w) = false ->
  toInclude this value compareValues message h
  = (Throw (usage_error ("The " ++ quoted "actual" ++
       " argument in expect(actual).toInclude() must be an array, object, or a string")),
     h) /\
  toExclude this value compareValues message h
  = (Throw (usage_error ("The " ++ quoted "actual" ++
       " argument in expect(actual).toExclude() must be an array, object, or a string")),
     h).
Proof.
  intros Hw Hinc. unfold toInclude, toExclude, includable in *.
  split; destruct (String.eqb (typeof compareValues) "string");
    unfold bind at 1; rewrite (this_actual_live _ _ _ Hw);
    unfold bind at 1; by rewrite Hinc.
Qed.

End Pairs.

(** An instance of X4: a string is no function. *)
Lemma toThrow_toNotThrow_contract_witness :
  let e := Sample.expect (VString "a") in
  toThrow (H := Sample.collaborators) e.1 VUndefined VUndefined e.2
  = (Throw (new_Error
       ("The " ++ quoted "actual" ++
        " argument in expect(actual).toThrow() must be a function, 'a' was given")),
     e.2).
Proof.
  intros e.
  destruct (toThrow_toNotThrow_contract (H := Sample.collaborators) e.1
              (mkExpectation (VString "a") VUndefined VUndefined)
              e.2 VUndefined VUndefined VUndefined eq_refl) as (Husage & _).
  by destruct (Husage eq_refl) as (Hthrow & _).
Defined.

(** An instance of X5: a number is no type, and a string is a 'string'. *)
Lemma toBeA_toNotBeA_contract_witness :
  let e := Sample.expect (VString "a") in
  toBeA (H := Sample.collaborators) e.1 (VNumber (S754_zero false)) VUndefined
    e.2
  = (Throw (new_Error
       ("The " ++ quoted "value" ++
        " argument in toBeA(value) must be a function or a string")), e.2) /\
  passes (toBeA (H := Sample.collaborators) e.1 (VString "string") VUndefined)
    e.2 = true.
Proof.
  intros e. split.
  - destruct (toBeA_toNotBeA_contract (H := Sample.collaborators) e.1
                (mkExpectation (VString "a") VUndefined VUndefined)
                e.2 (VNumber (S754_zero false)) VUndefined VUndefined eq_refl)
      as (Husage & _).
    by destruct (Husage eq_refl e.1 e.2) as (HbeA & _).
  - destruct (toBeA_toNotBeA_contract (H := Sample.collaborators) e.1
                (mkExpectation (VString "a") VUndefined VUndefined)
                e.2 (VString "string") VUndefined VUndefined eq_refl)
      as (_ & Hvalid).
    by destruct (Hvalid eq_refl) as (HbeA & _).
Defined.

(** An instance of X6: 'abc' matches /b/. *)
Lemma toMatch_toNotMatch_contract_witness :
  let e := Sample.expect (VString "abc") in
  let pattern := VRegExp 4 "b" EmptyString in
  passes (toMatch (H := Sample.collaborators) e.1 pattern VUndefined) e.2
  = true /\
  passes (toNotMatch (H := Sample.collaborators) e.1 pattern VUndefined) e.2
  = false.
Proof.
  intros e pattern.
  destruct (toMatch_toNotMatch_contract (H := Sample.collaborators) e.1
              (mkExpectation (VString "abc") VUndefined VUndefined)
              e.2 pattern VUndefined VUndefined eq_refl) as (_ & _ & Hboth).
  destruct (Hboth eq_refl eq_refl) as (Hmatch & Hnot).
  by rewrite Hnot, Hmatch.
Defined.

(** An instance of X7: a number includes nothing. *)
Lemma toInclude_toExclude_usage_error_witness :
  let e := Sample.expect (VNumber (S754_zero false)) in
  toInclude (H := Sample.collaborators) e.1 (VString "a") VUndefined VUndefined
    e.2
  = (Throw (new_Error
       ("The " ++ quoted "actual" ++
        " argument in expect(actual).toInclude() must be an array, object, or a string")),
     e.2).
Proof.
  intros e.
  apply (toInclude_toExclude_usage_error (H := Sample.collaborators) e.1
           (mkExpectation (VNumber (S754_zero false)) VUndefined VUndefined)
           e.2 (VString "a") VUndefined VUndefined);
    reflexivity.
Defined.

(** ** Spies *)

Section SpyCalls.

Context `{Collaborators}.

Lemma toHaveBeenCalled_outcome this w h message :
  wrappers h !! this = Some w ->
  toHaveBeenCalled this message h
  = (if negb (isSpy (actual w))
     then Throw (usage_error ("The " ++ quoted "actual" ++
            " argument in expect(actual).toHaveBeenCalled() must be a spy"))
     else match actual w with
          | VSpy _ calls =>
              if (0 <? length calls)%nat then Return this
              else Throw (new_Error (render
                     (js_or message (VString "spy was not called")) []))
          | _ => Throw (TypeError "spy.calls is undefined")
          end, h).
Proof.
  intros Hw. unfold toHaveBeenCalled.
  unfold bind at 1. rewrite (this_actual_live _ _ _ Hw).
  unfold bind at 1, assert at 1. destruct (isSpy (actual w)); [|done].
  unfold ret at 1, bind, spy_calls, assert.
  destruct (actual w); try done. unfold ret. cbv beta iota.
  by destruct (0 <? length calls)%nat.
Qed.

Lemma toNotHaveBeenCalled_outcome this w h message :
  wrappers h !! this = Some w ->
  toNotHaveBeenCalled this message h
  = (if negb (isSpy (actual w))
     then Throw (usage_error ("The " ++ quoted "actual" ++
            " argument in expect(actual).toNotHaveBeenCalled() must be a spy"))
     else match actual w with
          | VSpy _ calls =>
              if (length calls =? 0)%nat then Return this
              else Throw (new_Error (render
                     (js_or message (VString "spy was not supposed to be called"))
                     []))
          | _ => Throw (TypeError "spy.calls is undefined")
          end, h).
Proof.
  intros Hw. unfold toNotHaveBeenCalled.
  unfold bind at 1. rewrite (this_actual_live _ _ _ Hw).
  unfold bind at 1, assert at 1. destruct (isSpy (actual w)); [|done].
  unfold ret at 1, bind, spy_calls, assert.
  destruct (actual w); try done. unfold ret. cbv beta iota.
  by destruct (length calls =? 0)%nat.
Qed.

(** X8.  On a live wrapper over a spy, [toHaveBeenCalled] passes exactly
    when the spy has a recorded call and [toNotHaveBeenCalled] exactly
    when it has none, so exactly one of the two passes; on a subject that
    [isSpy] rejects both throw their usage error. *)
Theorem toHaveBeenCalled_contract this w h message message' :
  wrappers h !! this = Some w ->
  (isSpy (actual w) = false ->
   toHaveBeenCalled this message h
   = (Throw (usage_error ("The " ++ quoted "actual" ++
        " argument in expect(actual).toHaveBeenCalled() must be a spy")), h) /\
   toNotHaveBeenCalled this message' h
   = (Throw (usage_error ("The " ++ quoted "actual" ++
        " argument in expect(actual).toNotHaveBeenCalled() must be a spy")),
      h)) /\
  (forall a calls,
     isSpy (actual w) = true -> actual w = VSpy a calls ->
     (passes (toHaveBeenCalled this message) h = true <-> calls <> []) /\
     passes (toNotHaveBeenCalled this message') h
     = negb (passes (toHaveBeenCalled this message) h)).
Proof.
  intros Hw. unfold passes.
  rewrite (toHaveBeenCalled_outcome _ _ _ _ Hw),
          (toNotHaveBeenCalled_outcome _ _ _ _ Hw).
  split.
  - by intros ->.
  - intros a calls -> ->. simpl. by destruct calls.
Qed.

(** X9.  On a live wrapper over a spy, whatever [isEqual] is: if
    [toHaveBeenCalledWith] passes for some expected arguments then
    [toHaveBeenCalled] passes and [toNotHaveBeenCalled] fails; and on a
    spy with no recorded call [toHaveBeenCalledWith] fails for every list
    of expected arguments, the empty one included. *)
Theorem toHaveBeenCalledWith_needs_a_call this w h a calls expectedArgs message :
  wrappers h !! this = Some w ->
  actual w = VSpy a calls ->
  isSpy (actual w) = true ->
  (passes (toHaveBeenCalledWith this expectedArgs) h = true ->
   passes (toHaveBeenCalled this message) h = true /\
   passes (toNotHaveBeenCalled this message) h = false) /\
  (calls = [] -> passes (toHaveBeenCalledWith this expectedArgs) h = false).
Proof.
  intros Hw Ha Hspy. unfold passes.
  rewrite (toHaveBeenCalledWith_outcome _ _ _ _ _ _ Hw Ha Hspy),
          (toHaveBeenCalled_outcome _ _ _ _ Hw),
          (toNotHaveBeenCalled_outcome _ _ _ _ Hw).
  rewrite Hspy, Ha. simpl. split.
  - by destruct calls.
  - by intros ->.
Qed.

End SpyCalls.

(** An instance of X8: a spy called once. *)
Lemma toHaveBeenCalled_contract_witness :
  let spy := VSpy 9 [(10%positive, [VString "a"])] in
  let e := Sample.expect spy in
  passes (toHaveBeenCalled (H := Sample.collaborators) e.1 VUndefined) e.2
  = true /\
  passes (toNotHaveBeenCalled (H := Sample.collaborators) e.1 VUndefined) e.2
  = false.
Proof.
  intros spy e.
  destruct (toHaveBeenCalled_contract (H := Sample.collaborators) e.1
              (mkExpectation spy VNull (VArray 2 [])) e.2 VUndefined VUndefined
              eq_refl) as (_ & Hspy).
  destruct (Hspy 9%positive [(10%positive, [VString "a"])] eq_refl eq_refl)
    as (Hcalled & Hnot).
  rewrite Hnot. by rewrite (proj2 Hcalled).
Defined.

(** An instance of X9: a spy never called, expected with no argument. *)
Lemma toHaveBeenCalledWith_needs_a_call_witness :
  let e := Sample.expect (VSpy 9 []) in
  passes (toHaveBeenCalledWith (H := Sample.collaborators) e.1 []) e.2 = false.
Proof.
  intros e.
  apply (toHaveBeenCalledWith_needs_a_call (H := Sample.collaborators) e.1
           (mkExpectation (VSpy 9 []) VNull (VArray 2 [])) e.2 9%positive []
           [] VUndefined eq_refl eq_refl eq_refl).
  reflexivity.
Defined.

(** ** Configuration: [withContext], and [withArgs] again *)

Section Configured.

Context `{Collaborators}.

Lemma withContext_outcome this w h c :
  wrappers h !! this = Some w ->
  withContext this c h
  = if isFunction (actual w)
    then (Return this,
          mkHeap (<[this := set_context c w]> (wrappers h)) (next h))
    else (Throw (usage_error ("The " ++ quoted "actual" ++
            " argument in expect(actual).withContext() must be a function")),
          h).
Proof.
  intros Hw. unfold withContext.
  unfold bind at 1. rewrite (this_actual_live _ _ _ Hw).
  unfold bind at 1, assert at 1. destruct (isFunction (actual w)); [|done].
  unfold ret at 1, bind, write_this. by rewrite Hw.
Qed.

(** X10.  On a live wrapper over a function, [withContext] returns the
    wrapper, sets its context to the given value and changes neither its
    subject, nor its argument list, nor any other wrapper; of two calls
    in a row the second one wins.  On a subject that is no function it
    throws its usage error and leaves the store as it was. *)
Theorem withContext_contract this w h c c' :
  wrappers h !! this = Some w ->
  (isFunction (actual w) = false ->
   withContext this c h
   = (Throw (usage_error ("The " ++ quoted "actual" ++
        " argument in expect(actual).withContext() must be a function")),
      h)) /\
  (isFunction (actual w) = true ->
   (withContext this c h).1 = Return this /\
   wrappers (withContext this c h).2 !! this
   = Some (mkExpectation (actual w) c (args w)) /\
   (forall l, l <> this ->
      wrappers (withContext this c h).2 !! l = wrappers h !! l) /\
   (this <- withContext this c ;; withContext this c') h
   = withContext this c' h).
Proof.
  intros Hw. split; intros Hf.
  - by rewrite (withContext_outcome _ _ _ _ Hw), Hf.
  - unfold bind. rewrite !(withContext_outcome _ _ _ _ Hw), Hf. simpl.
    rewrite lookup_insert_eq.
    split; [done | split; [done | split]].
    + intros l Hl. by rewrite lookup_insert_ne.
    + erewrite withContext_outcome by (simpl; apply lookup_insert_eq).
      simpl. rewrite Hf. simpl. by rewrite insert_insert_eq.
Qed.





End Configured.

(** An instance of X10: a context for a function. *)
Lemma withContext_contract_witness :
  let e := Sample.expect (VFunction 9) in
  wrappers (withContext (H := Sample.collaborators) e.1 (VString "ctx") e.2).2
    !! e.1
  = Some (mkExpectation (VFunction 9) (VString "ctx") (VArray 2 [])).
Proof.
  intros e.
  destruct (withContext_contract (H := Sample.collaborators) e.1
              (mkExpectation (VFunction 9) VNull (VArray 2 [])) e.2
              (VString "ctx") VNull eq_refl) as (_ & Hfunction).
  by destruct (Hfunction eq_refl) as (_ & Hcontext & _).
Defined.


(** ** The predicates only read *)

Section ReadOnly.

Context `{Collaborators}.

















End ReadOnly.


(** ** The prototype as a whole *)

Section Bound.

Context `{Collaborators}.



End Bound.


(** ** From the configuration to the call *)

Section Chain.

Context `{Collaborators}.

(** X14.  The chain [expect(f).withContext(c).withArgs(...xs).toThrow(v)]
    on a function [f] passes exactly when [functionThrows] holds of [f],
    the context [c], the configured argument list and [v]; the argument
    list is what [concat] makes of [xs] on the empty list, and the empty
    array of the constructor itself when [xs] is empty.  On a value that
    is no function the chain stops at [withContext], with its usage
    error. *)
Theorem configuration_reaches_toThrow f c xs v msg h :
  (isFunction f = true ->
   passes (configured_toThrow f c xs v msg) h
   = functionThrows f c
       (if (0 <? length xs)%nat
        then VArray (Pos.succ (Pos.succ (next h))) (concat_items [] xs)
        else VArray (Pos.succ (next h)) [])
       v) /\
  (isFunction f = false ->
   thrown (configured_toThrow f c xs v msg) h
   = Some (usage_error ("The " ++ quoted "actual" ++
             " argument in expect(actual).withContext() must be a function"))).
Proof.
  unfold passes, thrown, configured_toThrow. split; intros Hf.
  - unfold bind at 1. rewrite (new_Expectation_function f h Hf).
    set (w1 := mkExpectation f VNull (VArray (Pos.succ (next h)) [])).
    set (h1 := mkHeap (<[next h := w1]> (wrappers h))
                 (Pos.succ (Pos.succ (next h)))).
    assert (Hw1 : wrappers h1 !! next h = Some w1) by apply lookup_insert_eq.
    unfold bind at 1. rewrite (withContext_outcome _ _ _ c Hw1).
    change (isFunction (actual w1)) with (isFunction f). rewrite Hf.
    set (w2 := set_context c w1).
    set (h2 := mkHeap (<[next h := w2]> (wrappers h1)) (next h1)).
    assert (Hw2 : wrappers h2 !! next h = Some w2) by apply lookup_insert_eq.
    unfold bind at 1.
    rewrite (withArgs_outcome (next h) w2 h2 (Pos.succ (next h)) [] xs
               Hw2 Hf eq_refl).
    destruct (0 <? length xs)%nat.
    + set (w3 := set_args (VArray (next h2) (concat_items [] xs)) w2).
      set (h3 := mkHeap (<[next h := w3]> (wrappers h2)) (Pos.succ (next h2))).
      assert (Hw3 : wrappers h3 !! next h = Some w3) by apply lookup_insert_eq.
      rewrite (toThrow_outcome _ _ _ v msg Hw3).
      change (isFunction (actual w3)) with (isFunction f). rewrite Hf.
      simpl. by destruct (functionThrows _ _ _ _).
    + rewrite (toThrow_outcome _ _ _ v msg Hw2).
      change (isFunction (actual w2)) with (isFunction f). rewrite Hf.
      simpl. by destruct (functionThrows _ _ _ _).
  - unfold bind at 1.
    destruct (new_Expectation_outcome f h) as (h1 & -> & w1 & Hlive & Ha & _).
    unfold bind at 1.
    rewrite (withContext_outcome _ _ _ c Hlive), Ha. by rewrite Hf.
Qed.

End Chain.

(** An instance of X14: the functions of the sample never throw. *)
Lemma configuration_reaches_toThrow_witness :
  passes (configured_toThrow (H := Sample.collaborators) (VFunction 9)
            (VString "ctx") [VString "a"] VUndefined VUndefined)
    Sample.empty_heap
  = false.
Proof.
  destruct (configuration_reaches_toThrow (H := Sample.collaborators)
              (VFunction 9) (VString "ctx") [VString "a"] VUndefined VUndefined
              Sample.empty_heap) as (Hfunction & _).
  by rewrite (Hfunction eq_refl).
Defined.

(** ** How the ordering predicates relate *)

Section OrderingRelations.

Context `{Collaborators}.

Lemma SFcompare_antisym x y :
  SFcompare y x = CompOpp <$> SFcompare x y.
Proof.
  destruct x as [sx|sx| |sx mx e1], y as [sy|sy| |sy my e2];
    try done;
    try (by destruct sx); try (by destruct sy); try (by destruct sx, sy).
  unfold SFcompare.
  pose proof (Pos.compare_cont_antisym mx my Eq) as Hm. simpl in Hm.
  rewrite (Z.compare_antisym e1 e2), <- Hm.
  destruct sx, sy; simpl; try done;
    by destruct (e1 ?= e2)%Z, (Pos.compare_cont Eq mx my).
Qed.

Lemma ordering_passes this w h value (op : spec_float -> spec_float -> bool)
    (t1 t2 template : jsval) :
  wrappers h !! this = Some w ->
  passes (a <- this_actual this ;;
          assert (String.eqb (typeof a) "number") t1 [] ;;
          assert (String.eqb (typeof value) "number") t2 [] ;;
          assert (compare_with op a value) template [a; value] ;;
          ret this) h
  = compare_with op (actual w) value.
Proof.
  intros Hw. unfold passes. rewrite (ordering_outcome _ _ _ _ _ _ _ _ Hw).
  destruct (actual w), value; simpl; try done.
  by destruct (op n n0).
Qed.

(** X15.  On a live wrapper and for one argument: when [toBeLessThan]
    passes, [toBeLessThanOrEqualTo] passes and [toBeGreaterThan] fails;
    when [toBeGreaterThan] passes, [toBeGreaterThanOrEqualTo] passes.  On
    two numbers, [toBeLessThanOrEqualTo] and [toBeGreaterThanOrEqualTo]
    both pass exactly when the numbers are equal as doubles; and when
    neither is NaN, [toBeGreaterThan] passes exactly when
    [toBeLessThanOrEqualTo] fails, and [toBeLessThan] exactly when
    [toBeGreaterThanOrEqualTo] fails. *)
Theorem ordering_predicates_relate this w h value m1 m2 m3 m4 :
  wrappers h !! this = Some w ->
  (passes (toBeLessThan this value m1) h = true ->
   passes (toBeLessThanOrEqualTo this value m2) h = true /\
   passes (toBeGreaterThan this value m3) h = false) /\
  (passes (toBeGreaterThan this value m3) h = true ->
   passes (toBeGreaterThanOrEqualTo this value m4) h = true) /\
  (forall x y, actual w = VNumber x -> value = VNumber y ->
     passes (toBeLessThanOrEqualTo this value m2) h
     && passes (toBeGreaterThanOrEqualTo this value m4) h
     = SFeqb x y) /\
  (forall x y, actual w = VNumber x -> value = VNumber y ->
     x <> S754_nan -> y <> S754_nan ->
     passes (toBeGreaterThan this value m3) h
     = negb (passes (toBeLessThanOrEqualTo this value m2) h) /\
     passes (toBeLessThan this value m1) h
     = negb (passes (toBeGreaterThanOrEqualTo this value m4) h)).
Proof.
  intros Hw.
  unfold toBeLessThan, toBeLessThanOrEqualTo, toBeGreaterThan,
    toBeGreaterThanOrEqualTo.
  rewrite !(ordering_passes this w h value _ _ _ _ Hw).
  unfold compare_with, js_lt, js_le, js_gt, js_ge, SFltb, SFleb, SFeqb.
  split; [|split; [|split]].
  - destruct (actual w) as [| | |x| | | | | |]; try done.
    destruct value as [| | |y| | | | | |]; try done.
    rewrite (SFcompare_antisym x y).
    by destruct (SFcompare x y) as [[]|].
  - destruct (actual w) as [| | |x| | | | | |]; try done.
    destruct value as [| | |y| | | | | |]; try done.
    by destruct (SFcompare y x) as [[]|].
  - intros x y -> ->. rewrite (SFcompare_antisym x y).
    by destruct (SFcompare x y) as [[]|].
  - intros x y -> -> Hx Hy. rewrite (SFcompare_antisym x y).
    destruct (SFcompare x y) as [[]|] eqn:Hcmp; try done.
    by destruct x, y.
Qed.

End OrderingRelations.

(** An instance of X15: zero against minus zero. *)
Lemma ordering_predicates_relate_witness :
  let e := Sample.expect (VNumber (S754_zero false)) in
  passes (toBeLessThanOrEqualTo (H := Sample.collaborators) e.1
            (VNumber (S754_zero true)) VUndefined) e.2
  && passes (toBeGreaterThanOrEqualTo (H := Sample.collaborators) e.1
               (VNumber (S754_zero true)) VUndefined) e.2
  = true.
Proof.
  intros e.
  destruct (ordering_predicates_relate (H := Sample.collaborators) e.1
              (mkExpectation (VNumber (S754_zero false)) VUndefined VUndefined)
              e.2 (VNumber (S754_zero true)) VUndefined VUndefined VUndefined
              VUndefined eq_refl) as (_ & _ & Hboth & _).
  exact (Hboth (S754_zero false) (S754_zero true) eq_refl eq_refl).
Defined.

(** ** Messages *)

Section Messages.

Context `{Collaborators}.

Lemma js_or_falsy message d :
  truthy message = false -> js_or message d = js_or VUndefined d.
Proof. intros Hm. unfold js_or. by rewrite Hm. Qed.

(** X16.  Every method that takes a message treats a message that is not
    truthy (the empty string, [null], [false], a zero, NaN) as no message:
    the call is the same computation as the call with [undefined], and
    so fails with the default message. *)
Theorem falsy_message_is_no_message this value compareValues :
  ignores_a_falsy_message (toExist this) /\
  ignores_a_falsy_message (toNotExist this) /\
  ignores_a_falsy_message (toBe this value) /\
  ignores_a_falsy_message (toNotBe this value) /\
  ignores_a_falsy_message (toEqual this value) /\
  ignores_a_falsy_message (toNotEqual this value) /\
  ignores_a_falsy_message (toThrow this value) /\
  ignores_a_falsy_message (toNotThrow this value) /\
  ignores_a_falsy_message (toBeA this value) /\
  ignores_a_falsy_message (toNotBeA this value) /\
  ignores_a_falsy_message (toMatch this value) /\
  ignores_a_falsy_message (toNotMatch this value) /\
  ignores_a_falsy_message (toBeLessThan this value) /\
  ignores_a_falsy_message (toBeLessThanOrEqualTo this value) /\
  ignores_a_falsy_message (toBeGreaterThan this value) /\
  ignores_a_falsy_message (toBeGreaterThanOrEqualTo this value) /\
  ignores_a_falsy_message (toInclude this value compareValues) /\
  ignores_a_falsy_message (toExclude this value compareValues) /\
  ignores_a_falsy_message (toHaveBeenCalled this) /\
  ignores_a_falsy_message (toNotHaveBeenCalled this).
Proof.
  unfold ignores_a_falsy_message.
  repeat split; intros message Hm.
  all: unfold toExist, toNotExist, toBe, toNotBe, toEqual, toNotEqual,
         toThrow, toNotThrow, toBeA, toNotBeA, toMatch, toNotMatch,
         toBeLessThan, toBeLessThanOrEqualTo, toBeGreaterThan,
         toBeGreaterThanOrEqualTo, toInclude, toExclude, toHaveBeenCalled,
         toNotHaveBeenCalled.
  all: try (destruct (String.eqb (typeof compareValues) "string"); [done|]).
  all: by rewrite (js_or_falsy _ _ Hm).
Qed.

End Messages.

(** An instance of X16: [toBe] with the empty string for a message. *)
Lemma falsy_message_is_no_message_witness :
  let e := Sample.expect (VString "a") in
  thrown (toBe (H := Sample.collaborators) e.1 (VString "b")
            (VString EmptyString)) e.2
  = Some (new_Error "Expected 'a' to be 'b'").
Proof.
  intros e.
  destruct (falsy_message_is_no_message (H := Sample.collaborators) e.1
              (VString "b") VUndefined) as (_ & _ & HtoBe & _).
  by rewrite (HtoBe (VString EmptyString) eq_refl).
Defined.

(** ** The errors of [toHaveBeenCalledWith] *)

Section CalledWith.

Context `{Collaborators}.

(** X17.  On a live wrapper whose subject [isSpy] rejects,
    [toHaveBeenCalledWith] throws its usage error, whatever the expected
    arguments.  On a spy none of whose calls matches, it throws the
    failure rendered from 'spy was never called with %s' over the array
    of all its arguments: it takes no message, and a trailing string is
    one more expected argument. *)
Theorem toHaveBeenCalledWith_errors this w h rest :
  wrappers h !! this = Some w ->
  (isSpy (actual w) = false ->
   thrown (toHaveBeenCalledWith this rest) h
   = Some (usage_error ("The " ++ quoted "actual" ++
             " argument in expect(actual).toHaveBeenCalledWith() must be a spy"))) /\
  (forall a calls,
     isSpy (actual w) = true -> actual w = VSpy a calls ->
     passes (toHaveBeenCalledWith this rest) h = false ->
     thrown (toHaveBeenCalledWith this rest) h
     = Some (new_Error (render (VString "spy was never called with %s")
                          [VArray (next h) rest]))).
Proof.
  intros Hw. split.
  - intros Hspy. unfold thrown, toHaveBeenCalledWith, new_array.
    unfold bind at 1. unfold bind at 1. unfold alloc at 1. simpl.
    unfold bind at 1.
    rewrite (this_actual_live this w
               (mkHeap (wrappers h) (Pos.succ (next h))) Hw).
    unfold bind at 1. by rewrite Hspy.
  - intros a calls Hspy Ha. unfold passes, thrown.
    rewrite (toHaveBeenCalledWith_outcome _ _ _ _ _ _ Hw Ha Hspy).
    by destruct (existsb _ calls).
Qed.

End CalledWith.

(** An instance of X17: a message is taken for an expected argument. *)
Lemma toHaveBeenCalledWith_errors_witness :
  let spy := VSpy 9 [(10%positive, [VString "a"])] in
  let e := Sample.expect spy in
  thrown (toHaveBeenCalledWith (H := Sample.collaborators) e.1
            [VString "a"; VString "never called with a"]) e.2
  = Some (new_Error "spy was never called with [array]").
Proof.
  intros spy e.
  destruct (toHaveBeenCalledWith_errors (H := Sample.collaborators) e.1
              (mkExpectation spy VNull (VArray 2 [])) e.2
              [VString "a"; VString "never called with a"] eq_refl)
    as (_ & Hspy).
  exact (Hspy 9%positive [(10%positive, [VString "a"])] eq_refl eq_refl eq_refl).
Defined.

